(** * leanloader: the reference-counted GDI+ binding and the image
      acquisition protocol of [leanloader.c], as a shallow embedding.

    The C file keeps one global [env] (module handles, resolved function
    pointers, a reference count) and drives a [leanloader_image_info] through
    decode, measure, allocate and lock.  Every native entry point is reached
    through a pointer stored in [env]; the embedding keeps those pointers as
    integers (0 is the null pointer), records every native call together
    with what it returned in a chronological log, and stops with [NullCall]
    when the program calls through a null pointer. *)

From Stdlib Require Import ZArith List String Bool Lia.
Import ListNotations.
Open Scope string_scope.
Open Scope list_scope.
Open Scope Z_scope.

(** ** Machine integers *)

Definition ptr := Z.
Definition u32 := Z.
Definition i32 := Z.

(** Unsigned 32-bit wrap-around. *)
Definition wrap32 (x : Z) : u32 := x mod 2 ^ 32.

(** Conversion of a 32-bit pattern to [i32] (two's complement). *)
Definition to_i32 (x : Z) : i32 :=
  let y := wrap32 x in if y <? 2 ^ 31 then y else y - 2 ^ 32.

(** ** The structs of the source *)

Record BitmapData := mkBitmapData {
  bd_w : u32;
  bd_h : u32;
  bd_stride : i32;
  bd_PixelFormat : u32;
  bd_ptr : ptr;
  bd_Reserved : ptr
}.

(** [name] is the 16-bit string of the source; only its text matters here. *)
Record leanloader_image_info := mkInfo {
  name : string;
  bd : BitmapData;
  gpbitmap : ptr
}.

Record GdiplusStartupInput := mkStartupInput {
  GdiplusVersion : u32;
  DebugEventCallback : ptr;
  SuppressBackgroundThread : u32;
  SuppressExternalCodecs : u32
}.

Record Rect := mkRect { rect_x : i32; rect_y : i32; rect_w : i32; rect_h : i32 }.

Record env_t := mkEnv {
  token : ptr;
  refcnt : u32;
  kernel32 : ptr;
  gdiplus : ptr;
  GetProcAddress : ptr;
  LoadLibraryA : ptr;
  FreeLibrary : ptr;
  GlobalAlloc : ptr;
  GlobalFree : ptr;
  GdipStartup : ptr;
  GdipShutdown : ptr;
  GdipCreateBitmapFromFile : ptr;
  GdipDisposeImage : ptr;
  GdipGetImageWidth : ptr;
  GdipGetImageHeight : ptr;
  GdipBitmapLockBits : ptr;
  GdipBitmapUnlockBits : ptr
}.

(** [static env_t env = {0};] *)
Definition env0 : env_t := mkEnv 0 0 0 0 0 0 0 0 0 0 0 0 0 0 0 0 0.

(** Field assignments. *)
Definition set_bd_w v b :=
  mkBitmapData v (bd_h b) (bd_stride b) (bd_PixelFormat b) (bd_ptr b) (bd_Reserved b).
Definition set_bd_h v b :=
  mkBitmapData (bd_w b) v (bd_stride b) (bd_PixelFormat b) (bd_ptr b) (bd_Reserved b).
Definition set_bd_stride v b :=
  mkBitmapData (bd_w b) (bd_h b) v (bd_PixelFormat b) (bd_ptr b) (bd_Reserved b).
Definition set_bd_PixelFormat v b :=
  mkBitmapData (bd_w b) (bd_h b) (bd_stride b) v (bd_ptr b) (bd_Reserved b).
Definition set_bd_ptr v b :=
  mkBitmapData (bd_w b) (bd_h b) (bd_stride b) (bd_PixelFormat b) v (bd_Reserved b).

Definition set_bd v i := mkInfo (name i) v (gpbitmap i).
Definition set_gpbitmap v i := mkInfo (name i) (bd i) v.

Definition set_token v e :=
  mkEnv v (refcnt e) (kernel32 e) (gdiplus e) (GetProcAddress e) (LoadLibraryA e)
    (FreeLibrary e) (GlobalAlloc e) (GlobalFree e) (GdipStartup e) (GdipShutdown e)
    (GdipCreateBitmapFromFile e) (GdipDisposeImage e) (GdipGetImageWidth e)
    (GdipGetImageHeight e) (GdipBitmapLockBits e) (GdipBitmapUnlockBits e).
Definition set_refcnt v e :=
  mkEnv (token e) v (kernel32 e) (gdiplus e) (GetProcAddress e) (LoadLibraryA e)
    (FreeLibrary e) (GlobalAlloc e) (GlobalFree e) (GdipStartup e) (GdipShutdown e)
    (GdipCreateBitmapFromFile e) (GdipDisposeImage e) (GdipGetImageWidth e)
    (GdipGetImageHeight e) (GdipBitmapLockBits e) (GdipBitmapUnlockBits e).
Definition set_kernel32 v e :=
  mkEnv (token e) (refcnt e) v (gdiplus e) (GetProcAddress e) (LoadLibraryA e)
    (FreeLibrary e) (GlobalAlloc e) (GlobalFree e) (GdipStartup e) (GdipShutdown e)
    (GdipCreateBitmapFromFile e) (GdipDisposeImage e) (GdipGetImageWidth e)
    (GdipGetImageHeight e) (GdipBitmapLockBits e) (GdipBitmapUnlockBits e).
Definition set_gdiplus v e :=
  mkEnv (token e) (refcnt e) (kernel32 e) v (GetProcAddress e) (LoadLibraryA e)
    (FreeLibrary e) (GlobalAlloc e) (GlobalFree e) (GdipStartup e) (GdipShutdown e)
    (GdipCreateBitmapFromFile e) (GdipDisposeImage e) (GdipGetImageWidth e)
    (GdipGetImageHeight e) (GdipBitmapLockBits e) (GdipBitmapUnlockBits e).
Definition set_GetProcAddress v e :=
  mkEnv (token e) (refcnt e) (kernel32 e) (gdiplus e) v (LoadLibraryA e)
    (FreeLibrary e) (GlobalAlloc e) (GlobalFree e) (GdipStartup e) (GdipShutdown e)
    (GdipCreateBitmapFromFile e) (GdipDisposeImage e) (GdipGetImageWidth e)
    (GdipGetImageHeight e) (GdipBitmapLockBits e) (GdipBitmapUnlockBits e).
Definition set_LoadLibraryA v e :=
  mkEnv (token e) (refcnt e) (kernel32 e) (gdiplus e) (GetProcAddress e) v
    (FreeLibrary e) (GlobalAlloc e) (GlobalFree e) (GdipStartup e) (GdipShutdown e)
    (GdipCreateBitmapFromFile e) (GdipDisposeImage e) (GdipGetImageWidth e)
    (GdipGetImageHeight e) (GdipBitmapLockBits e) (GdipBitmapUnlockBits e).
Definition set_FreeLibrary v e :=
  mkEnv (token e) (refcnt e) (kernel32 e) (gdiplus e) (GetProcAddress e) (LoadLibraryA e)
    v (GlobalAlloc e) (GlobalFree e) (GdipStartup e) (GdipShutdown e)
    (GdipCreateBitmapFromFile e) (GdipDisposeImage e) (GdipGetImageWidth e)
    (GdipGetImageHeight e) (GdipBitmapLockBits e) (GdipBitmapUnlockBits e).
Definition set_GlobalAlloc v e :=
  mkEnv (token e) (refcnt e) (kernel32 e) (gdiplus e) (GetProcAddress e) (LoadLibraryA e)
    (FreeLibrary e) v (GlobalFree e) (GdipStartup e) (GdipShutdown e)
    (GdipCreateBitmapFromFile e) (GdipDisposeImage e) (GdipGetImageWidth e)
    (GdipGetImageHeight e) (GdipBitmapLockBits e) (GdipBitmapUnlockBits e).
Definition set_GlobalFree v e :=
  mkEnv (token e) (refcnt e) (kernel32 e) (gdiplus e) (GetProcAddress e) (LoadLibraryA e)
    (FreeLibrary e) (GlobalAlloc e) v (GdipStartup e) (GdipShutdown e)
    (GdipCreateBitmapFromFile e) (GdipDisposeImage e) (GdipGetImageWidth e)
    (GdipGetImageHeight e) (GdipBitmapLockBits e) (GdipBitmapUnlockBits e).
Definition set_GdipStartup v e :=
  mkEnv (token e) (refcnt e) (kernel32 e) (gdiplus e) (GetProcAddress e) (LoadLibraryA e)
    (FreeLibrary e) (GlobalAlloc e) (GlobalFree e) v (GdipShutdown e)
    (GdipCreateBitmapFromFile e) (GdipDisposeImage e) (GdipGetImageWidth e)
    (GdipGetImageHeight e) (GdipBitmapLockBits e) (GdipBitmapUnlockBits e).
Definition set_GdipShutdown v e :=
  mkEnv (token e) (refcnt e) (kernel32 e) (gdiplus e) (GetProcAddress e) (LoadLibraryA e)
    (FreeLibrary e) (GlobalAlloc e) (GlobalFree e) (GdipStartup e) v
    (GdipCreateBitmapFromFile e) (GdipDisposeImage e) (GdipGetImageWidth e)
    (GdipGetImageHeight e) (GdipBitmapLockBits e) (GdipBitmapUnlockBits e).
Definition set_GdipCreateBitmapFromFile v e :=
  mkEnv (token e) (refcnt e) (kernel32 e) (gdiplus e) (GetProcAddress e) (LoadLibraryA e)
    (FreeLibrary e) (GlobalAlloc e) (GlobalFree e) (GdipStartup e) (GdipShutdown e)
    v (GdipDisposeImage e) (GdipGetImageWidth e)
    (GdipGetImageHeight e) (GdipBitmapLockBits e) (GdipBitmapUnlockBits e).
Definition set_GdipDisposeImage v e :=
  mkEnv (token e) (refcnt e) (kernel32 e) (gdiplus e) (GetProcAddress e) (LoadLibraryA e)
    (FreeLibrary e) (GlobalAlloc e) (GlobalFree e) (GdipStartup e) (GdipShutdown e)
    (GdipCreateBitmapFromFile e) v (GdipGetImageWidth e)
    (GdipGetImageHeight e) (GdipBitmapLockBits e) (GdipBitmapUnlockBits e).
Definition set_GdipGetImageWidth v e :=
  mkEnv (token e) (refcnt e) (kernel32 e) (gdiplus e) (GetProcAddress e) (LoadLibraryA e)
    (FreeLibrary e) (GlobalAlloc e) (GlobalFree e) (GdipStartup e) (GdipShutdown e)
    (GdipCreateBitmapFromFile e) (GdipDisposeImage e) v
    (GdipGetImageHeight e) (GdipBitmapLockBits e) (GdipBitmapUnlockBits e).
Definition set_GdipGetImageHeight v e :=
  mkEnv (token e) (refcnt e) (kernel32 e) (gdiplus e) (GetProcAddress e) (LoadLibraryA e)
    (FreeLibrary e) (GlobalAlloc e) (GlobalFree e) (GdipStartup e) (GdipShutdown e)
    (GdipCreateBitmapFromFile e) (GdipDisposeImage e) (GdipGetImageWidth e)
    v (GdipBitmapLockBits e) (GdipBitmapUnlockBits e).
Definition set_GdipBitmapLockBits v e :=
  mkEnv (token e) (refcnt e) (kernel32 e) (gdiplus e) (GetProcAddress e) (LoadLibraryA e)
    (FreeLibrary e) (GlobalAlloc e) (GlobalFree e) (GdipStartup e) (GdipShutdown e)
    (GdipCreateBitmapFromFile e) (GdipDisposeImage e) (GdipGetImageWidth e)
    (GdipGetImageHeight e) v (GdipBitmapUnlockBits e).
Definition set_GdipBitmapUnlockBits v e :=
  mkEnv (token e) (refcnt e) (kernel32 e) (gdiplus e) (GetProcAddress e) (LoadLibraryA e)
    (FreeLibrary e) (GlobalAlloc e) (GlobalFree e) (GdipStartup e) (GdipShutdown e)
    (GdipCreateBitmapFromFile e) (GdipDisposeImage e) (GdipGetImageWidth e)
    (GdipGetImageHeight e) (GdipBitmapLockBits e) v.

(** ** Native calls

    One event per native call, with the arguments the program passed and the
    values the call handed back (its result and what it wrote through its
    pointer arguments).  Results the program discards are not recorded. *)

Inductive event :=
| EvKernel32 (ret : ptr)
| EvGetGetProcAddress (k32 : ptr) (ret : ptr)
| EvGetProcAddress (module : ptr) (symbol : string) (ret : ptr)
| EvLoadLibraryA (dll : string) (ret : ptr)
| EvFreeLibrary (module : ptr)
| EvGlobalAlloc (flags size : u32) (ret : ptr)
| EvGlobalFree (p : ptr)
| EvGdiplusStartup (input : GdiplusStartupInput) (output : ptr)
    (status : u32) (tok : ptr)
| EvGdiplusShutdown (tok : ptr)
| EvCreateBitmapFromFile (filename : string) (status : u32) (bitmap : ptr)
| EvDisposeImage (image : ptr)
| EvGetImageWidth (image : ptr) (status : u32) (width : u32)
| EvGetImageHeight (image : ptr) (status : u32) (height : u32)
| EvLockBits (bitmap : ptr) (rect : Rect) (flags format : u32)
    (passed : BitmapData) (status : u32) (left : BitmapData)
| EvUnlockBits (bitmap : ptr) (passed : BitmapData) (left : BitmapData).

(** The collaborators (symbol resolver, kernel, imaging subsystem).  Each
    answer is a function of the calls made so far and of the arguments, so a
    collaborator may answer the same call differently over time.  A function
    with an out-parameter receives the old content and returns the new one. *)
Record natives := mkNatives {
  get_kernel32_modulehandle : list event -> ptr;
  get_getprocaddress : list event -> ptr -> ptr;
  os_GetProcAddress : list event -> ptr -> string -> ptr;
  os_LoadLibraryA : list event -> string -> ptr;
  os_GlobalAlloc : list event -> u32 -> u32 -> ptr;
  os_GdiplusStartup : list event -> ptr -> GdiplusStartupInput -> ptr -> u32 * ptr;
  os_GdipCreateBitmapFromFile : list event -> string -> ptr -> u32 * ptr;
  os_GdipGetImageWidth : list event -> ptr -> u32 -> u32 * u32;
  os_GdipGetImageHeight : list event -> ptr -> u32 -> u32 * u32;
  os_GdipBitmapLockBits :
    list event -> ptr -> Rect -> u32 -> u32 -> BitmapData -> u32 * BitmapData;
  os_GdipBitmapUnlockBits : list event -> ptr -> BitmapData -> BitmapData
}.

(** ** Program state and the monad of the embedding *)

Record state := mkState { env : env_t; log : list event }.

Inductive outcome (A : Type) :=
| Done (a : A) (s : state)
| NullCall (slot : string) (s : state).
Arguments Done {A} a s.
Arguments NullCall {A} slot s.

Definition M (A : Type) := state -> outcome A.

Definition ret {A} (a : A) : M A := fun s => Done a s.

Definition bind {A B} (m : M A) (k : A -> M B) : M B :=
  fun s => match m s with
           | Done a s' => k a s'
           | NullCall slot s' => NullCall slot s'
           end.

Notation "x <- m ;; k" := (bind m (fun x => k))
  (at level 61, m at next level, right associativity).
Notation "' pat <- m ;; k" := (bind m (fun x => match x with pat => k end))
  (at level 61, pat pattern, m at next level, right associativity).
Notation "m ;;; k" := (bind m (fun _ => k))
  (at level 61, right associativity).

Definition get_env : M env_t := fun s => Done (env s) s.
Definition modify_env (f : env_t -> env_t) : M unit :=
  fun s => Done tt (mkState (f (env s)) (log s)).

(** A call of a function linked into the program. *)
Definition direct {A} (answer : list event -> A) (ev : A -> event) : M A :=
  fun s => let a := answer (log s) in
           Done a (mkState (env s) (log s ++ [ev a])).

(** A call through the function pointer [slot] of [env]. *)
Definition call {A} (slot_name : string) (slot : env_t -> ptr)
    (answer : list event -> A) (ev : A -> event) : M A :=
  fun s => if slot (env s) =? 0 then NullCall slot_name s
           else direct answer ev s.

Definition GPTR : u32 := 0x0040.
Definition ImageLockModeRead : u32 := 0x0001.
Definition ImageLockModeWrite : u32 := 0x0002.
Definition ImageLockModeUserInputBuf : u32 := 0x0004.
Definition PixelFormat32bppARGB : u32 := 0x0026200a.

(** [(info->bd.w * info->bd.h * 4) + 63 & ~63] on [u32]. *)
Definition allocSize (w h : u32) : u32 :=
  Z.land (wrap32 (wrap32 (wrap32 (w * h) * 4) + 63)) (wrap32 (Z.lnot 63)).

Section Program.

Variable N : natives.

(** [env.X = env.GetProcAddress(module, "symbol")] *)
Definition resolve (module : env_t -> ptr) (symbol : string)
    (store : ptr -> env_t -> env_t) : M unit :=
  e <- get_env ;;
  p <- call "GetProcAddress" GetProcAddress
         (fun l => os_GetProcAddress N l (module e) symbol)
         (EvGetProcAddress (module e) symbol) ;;
  modify_env (store p).

Definition leanloader_env_init : M i32 :=
  e <- get_env ;;
  (if refcnt e =? 0 then
     k <- direct (get_kernel32_modulehandle N) EvKernel32 ;;
     modify_env (set_kernel32 k) ;;;
     g <- direct (fun l => get_getprocaddress N l k) (EvGetGetProcAddress k) ;;
     modify_env (set_GetProcAddress g) ;;;
     resolve kernel32 "LoadLibraryA" set_LoadLibraryA ;;;
     resolve kernel32 "FreeLibrary" set_FreeLibrary ;;;
     resolve kernel32 "GlobalAlloc" set_GlobalAlloc ;;;
     resolve kernel32 "GlobalFree" set_GlobalFree ;;;
     m <- call "LoadLibraryA" LoadLibraryA
            (fun l => os_LoadLibraryA N l "gdiplus.dll")
            (EvLoadLibraryA "gdiplus.dll") ;;
     modify_env (set_gdiplus m) ;;;
     if m =? 0 then ret tt
     else
       resolve gdiplus "GdiplusStartup" set_GdipStartup ;;;
       resolve gdiplus "GdiplusShutdown" set_GdipShutdown ;;;
       resolve gdiplus "GdipCreateBitmapFromFile" set_GdipCreateBitmapFromFile ;;;
       resolve gdiplus "GdipDisposeImage" set_GdipDisposeImage ;;;
       resolve gdiplus "GdipGetImageWidth" set_GdipGetImageWidth ;;;
       resolve gdiplus "GdipGetImageHeight" set_GdipGetImageHeight ;;;
       resolve gdiplus "GdipBitmapLockBits" set_GdipBitmapLockBits ;;;
       resolve gdiplus "GdipBitmapUnlockBits" set_GdipBitmapUnlockBits ;;;
       let input := mkStartupInput 1 0 0 0 in
       e <- get_env ;;
       '(status, tok) <- call "GdipStartup" GdipStartup
            (fun l => os_GdiplusStartup N l (token e) input 0)
            (fun r => EvGdiplusStartup input 0 (fst r) (snd r)) ;;
       modify_env (set_token tok) ;;;
       if status =? 0 then
         modify_env (fun e => set_refcnt (wrap32 (refcnt e + 1)) e)
       else
         e <- get_env ;;
         call "FreeLibrary" FreeLibrary (fun _ => tt)
           (fun _ => EvFreeLibrary (gdiplus e))
   else
     modify_env (fun e => set_refcnt (wrap32 (refcnt e + 1)) e)) ;;;
  e <- get_env ;;
  ret (to_i32 (refcnt e)).

Definition leanloader_env_deinit : M i32 :=
  e <- get_env ;;
  (if 0 <? refcnt e then
     modify_env (fun e => set_refcnt (wrap32 (refcnt e - 1)) e) ;;;
     e <- get_env ;;
     if refcnt e =? 0 then
       call "GdipShutdown" GdipShutdown (fun _ => tt)
         (fun _ => EvGdiplusShutdown (token e)) ;;;
       call "FreeLibrary" FreeLibrary (fun _ => tt)
         (fun _ => EvFreeLibrary (gdiplus e))
     else ret tt
   else ret tt) ;;;
  e <- get_env ;;
  ret (to_i32 (refcnt e)).

(** The block of [leanloader_load] between the successful decode and the
    call of [GdipDisposeImage]: [true] stands for the [return 1] inside the
    block, [false] for falling out of it. *)
Definition measure_allocate_lock (info : leanloader_image_info)
    : M (bool * leanloader_image_info) :=
  '(status, w) <- call "GdipGetImageWidth" GdipGetImageWidth
       (fun l => os_GdipGetImageWidth N l (gpbitmap info) (bd_w (bd info)))
       (fun r => EvGetImageWidth (gpbitmap info) (fst r) (snd r)) ;;
  let info := set_bd (set_bd_w w (bd info)) info in
  if status =? 0 then
    '(status, h) <- call "GdipGetImageHeight" GdipGetImageHeight
         (fun l => os_GdipGetImageHeight N l (gpbitmap info) (bd_h (bd info)))
         (fun r => EvGetImageHeight (gpbitmap info) (fst r) (snd r)) ;;
    let info := set_bd (set_bd_h h (bd info)) info in
    if status =? 0 then
      let size := allocSize (bd_w (bd info)) (bd_h (bd info)) in
      p <- call "GlobalAlloc" GlobalAlloc
             (fun l => os_GlobalAlloc N l GPTR size)
             (EvGlobalAlloc GPTR size) ;;
      let info := set_bd (set_bd_ptr p (bd info)) info in
      if p =? 0 then ret (false, info)
      else
        let flags :=
          Z.lor (Z.lor ImageLockModeRead ImageLockModeWrite)
            ImageLockModeUserInputBuf in
        let info := set_bd (set_bd_PixelFormat PixelFormat32bppARGB (bd info)) info in
        let info :=
          set_bd (set_bd_stride (to_i32 (wrap32 (bd_w (bd info) * 4))) (bd info)) info in
        let rect := mkRect 0 0 (to_i32 (bd_w (bd info))) (to_i32 (bd_h (bd info))) in
        '(status, b) <- call "GdipBitmapLockBits" GdipBitmapLockBits
             (fun l => os_GdipBitmapLockBits N l (gpbitmap info) rect flags
                         PixelFormat32bppARGB (bd info))
             (fun r => EvLockBits (gpbitmap info) rect flags
                         PixelFormat32bppARGB (bd info) (fst r) (snd r)) ;;
        let info := set_bd b info in
        if status =? 0 then ret (true, info)
        else
          call "GlobalFree" GlobalFree (fun _ => tt)
            (fun _ => EvGlobalFree (bd_ptr (bd info))) ;;;
          ret (false, info)
    else ret (false, info)
  else ret (false, info).

Definition leanloader_load (info : leanloader_image_info)
    : M (i32 * leanloader_image_info) :=
  let info := set_gpbitmap 0 info in
  r <- leanloader_env_init ;;
  if r =? 0 then ret (0, info)
  else
    '(status, g) <- call "GdipCreateBitmapFromFile" GdipCreateBitmapFromFile
         (fun l => os_GdipCreateBitmapFromFile N l (name info) (gpbitmap info))
         (fun r => EvCreateBitmapFromFile (name info) (fst r) (snd r)) ;;
    let info := set_gpbitmap g info in
    if status =? 0 then
      '(returned, info) <- measure_allocate_lock info ;;
      if returned : bool then ret (1, info)
      else
        call "GdipDisposeImage" GdipDisposeImage (fun _ => tt)
          (fun _ => EvDisposeImage (gpbitmap info)) ;;;
        ret (0, info)
    else ret (0, info).

Definition leanloader_dispose (info : leanloader_image_info)
    : M (i32 * leanloader_image_info) :=
  info <-
    (if gpbitmap info =? 0 then ret info
     else
       info <-
         (if bd_ptr (bd info) =? 0 then ret info
          else
            b <- call "GdipBitmapUnlockBits" GdipBitmapUnlockBits
                   (fun l => os_GdipBitmapUnlockBits N l (gpbitmap info) (bd info))
                   (EvUnlockBits (gpbitmap info) (bd info)) ;;
            let info := set_bd b info in
            call "GlobalFree" GlobalFree (fun _ => tt)
              (fun _ => EvGlobalFree (bd_ptr (bd info))) ;;;
            ret (set_bd (set_bd_ptr 0 (bd info)) info)) ;;
       call "GdipDisposeImage" GdipDisposeImage (fun _ => tt)
         (fun _ => EvDisposeImage (gpbitmap info)) ;;;
       ret (set_gpbitmap 0 info)) ;;
  leanloader_env_deinit ;;;
  ret (0, info).

End Program.

(** ** A scripted collaborator

    A test double for the three collaborators: every answer is read off a
    script, whatever the history.  Lock and unlock leave the bitmap-data
    block as they got it (user-input-buffer mode). *)

Record script := mkScript {
  unresolved : list string;
  gdiplus_module : ptr;
  startup_status : u32;
  create_status : u32;
  create_bitmap : ptr;
  width_status : u32;
  image_width : u32;
  height_status : u32;
  image_height : u32;
  buffer : ptr;
  lock_status : u32
}.

Definition scripted (c : script) : natives :=
  {| get_kernel32_modulehandle := fun _ => 0x76000000;
     get_getprocaddress := fun _ _ => 0x76001000;
     os_GetProcAddress := fun _ _ symbol =>
       if existsb (String.eqb symbol) (unresolved c) then 0 else 0x76002000;
     os_LoadLibraryA := fun _ _ => gdiplus_module c;
     os_GlobalAlloc := fun _ _ _ => buffer c;
     os_GdiplusStartup := fun _ _ _ _ => (startup_status c, 0xabcd);
     os_GdipCreateBitmapFromFile := fun _ _ _ => (create_status c, create_bitmap c);
     os_GdipGetImageWidth := fun _ _ _ => (width_status c, image_width c);
     os_GdipGetImageHeight := fun _ _ _ => (height_status c, image_height c);
     os_GdipBitmapLockBits := fun _ _ _ _ _ b => (lock_status c, b);
     os_GdipBitmapUnlockBits := fun _ _ b => b |}.

(** Everything succeeds: a [w] x [h] image at handle 0x5000, buffer at 0x9000. *)
Definition all_ok (w h : u32) : script :=
  mkScript [] 0x70000000 0 0 0x5000 0 w 0 h 0x9000 0.

(** The caller's zero-initialised handle and the initial program state. *)
Definition fresh_info (file : string) : leanloader_image_info :=
  mkInfo file (mkBitmapData 0 0 0 0 0 0) 0.
Definition state0 : state := mkState env0 [].

(** ** Sessions of the binding registry *)


Section Sessions.

Variable N : natives.



End Sessions.

(** ** Observations on the log *)

Definition is_startup (e : event) : bool :=
  match e with EvGdiplusStartup _ _ _ _ => true | _ => false end.
Definition is_shutdown (e : event) : bool :=
  match e with EvGdiplusShutdown _ => true | _ => false end.
Definition is_resolution (e : event) : bool :=
  match e with
  | EvKernel32 _ | EvGetGetProcAddress _ _ | EvGetProcAddress _ _ _
  | EvLoadLibraryA _ _ => true
  | _ => false
  end.
(** The calls [leanloader_env_deinit] can make. *)
Definition is_teardown (e : event) : bool :=
  match e with EvGdiplusShutdown _ | EvFreeLibrary _ => true | _ => false end.

Definition count (p : event -> bool) (l : list event) : nat :=
  List.length (filter p l).

Definition in_u32 (x : Z) : Prop := 0 <= x < 2 ^ 32.

Definition is_alloc (e : event) : bool :=
  match e with EvGlobalAlloc _ _ _ => true | _ => false end.
Definition is_lock (e : event) : bool :=
  match e with EvLockBits _ _ _ _ _ _ _ => true | _ => false end.

(** The calls the binding registry makes on its own behalf. *)
Definition is_registry_event (e : event) : bool :=
  is_resolution e || is_startup e || is_teardown e.

(** Every allocation among [evs] asks for [allocSize w h] zero-initialised
    bytes, [w] and [h] being a width and a height the subsystem reported. *)
Definition sized_allocations (evs : list event) : Prop :=
  forall flags size p, In (EvGlobalAlloc flags size p) evs ->
    flags = GPTR /\
    exists g w h, In (EvGetImageWidth g 0 w) evs /\
      In (EvGetImageHeight g 0 h) evs /\ size = allocSize w h.

(** How often the buffer [p] was handed to [GlobalFree], and the image [g]
    to [GdipDisposeImage]. *)
Definition frees (p : ptr) (l : list event) : nat :=
  count (fun e => match e with EvGlobalFree q => q =? p | _ => false end) l.
Definition disposals (g : ptr) (l : list event) : nat :=
  count (fun e => match e with EvDisposeImage q => q =? g | _ => false end) l.

(** The fixed configuration handed to [GdiplusStartup]. *)
Definition startup_input : GdiplusStartupInput := mkStartupInput 1 0 0 0.

(** The entry points that [leanloader_dispose] and [leanloader_env_deinit]
    call are resolved. *)
Definition teardown_bound (e : env_t) : Prop :=
  GdipBitmapUnlockBits e <> 0 /\ GlobalFree e <> 0 /\ GdipDisposeImage e <> 0 /\
  GdipShutdown e <> 0 /\ FreeLibrary e <> 0.

(** The next multiple of 64 at or above [y], over the integers. *)
Definition round64 (y : Z) : Z := (y + 63) / 64 * 64.

(** Disposal with the buffer test and the image test one after the other,
    each on its own resource, as the prose of the design puts it; compared
    with [leanloader_dispose] below. *)
Definition dispose_in_sequence (N : natives) (info : leanloader_image_info)
    : M (i32 * leanloader_image_info) :=
  info <-
    (if bd_ptr (bd info) =? 0 then ret info
     else
       b <- call "GdipBitmapUnlockBits" GdipBitmapUnlockBits
              (fun l => os_GdipBitmapUnlockBits N l (gpbitmap info) (bd info))
              (EvUnlockBits (gpbitmap info) (bd info)) ;;
       let info := set_bd b info in
       call "GlobalFree" GlobalFree (fun _ => tt)
         (fun _ => EvGlobalFree (bd_ptr (bd info))) ;;;
       ret (set_bd (set_bd_ptr 0 (bd info)) info)) ;;
  info <-
    (if gpbitmap info =? 0 then ret info
     else
       call "GdipDisposeImage" GdipDisposeImage (fun _ => tt)
         (fun _ => EvDisposeImage (gpbitmap info)) ;;;
       ret (set_gpbitmap 0 info)) ;;
  leanloader_env_deinit ;;;
  ret (0, info).

(** Scripts for the failure paths. *)
Definition decode_fails : script :=
  mkScript [] 0x70000000 0 3 0 0 0 0 0 0 0.
Definition width_fails : script :=
  mkScript [] 0x70000000 0 0 0x5000 1 0 0 0 0 0.
Definition lock_fails : script :=
  mkScript [] 0x70000000 0 0 0x5000 0 10 0 10 0x9000 3.
Definition decoder_unresolved : script :=
  mkScript ["GdipCreateBitmapFromFile"] 0x70000000 0 0 0x5000 0 10 0 10 0x9000 0.

(** The handle and the state that a first acquisition leaves behind. *)
Definition after_load (c : script) (file : string)
    : leanloader_image_info * state :=
  match leanloader_load (scripted c) (fresh_info file) state0 with
  | Done (_, info) s => (info, s)
  | NullCall _ s => (fresh_info file, s)
  end.

(** One 10 x 10 image acquired, nothing released yet. *)
Definition loaded_info : leanloader_image_info :=
  fst (after_load (all_ok 10 10) "a.png").
Definition loaded_state : state := snd (after_load (all_ok 10 10) "a.png").

(** A handle with a buffer pointer and no image. *)
Definition buffer_only : leanloader_image_info :=
  mkInfo "a.png" (mkBitmapData 10 10 40 PixelFormat32bppARGB 0x9000 0) 0.

(** The state an outcome ends in. *)
Definition final_state {A} (o : outcome A) : state :=
  match o with Done _ s => s | NullCall _ s => s end.



(** What a first-time [leanloader_env_init] started in [s] can end in.  It
    returns 0, the count still 0, when the module load returned null or
    startup returned a nonzero status, and 1 otherwise; it stops on a null
    pointer only at an entry point it calls itself. *)
Definition first_init_outcome (s : state) (o : outcome i32) : Prop :=
  match o with
  | Done r s' =>
      exists evs, log s' = log s ++ evs /\ refcnt (env s') = r /\
        (r = 0 /\
         (In (EvLoadLibraryA "gdiplus.dll" 0) evs \/
          exists st tok, st <> 0 /\
            In (EvGdiplusStartup startup_input 0 st tok) evs)
         \/
         r = 1 /\
         exists m tok, m <> 0 /\ In (EvLoadLibraryA "gdiplus.dll" m) evs /\
           In (EvGdiplusStartup startup_input 0 0 tok) evs)
  | NullCall n s' =>
      n = "GetProcAddress" /\ GetProcAddress (env s') = 0 \/
      n = "LoadLibraryA" /\ LoadLibraryA (env s') = 0 \/
      n = "GdipStartup" /\ GdipStartup (env s') = 0 \/
      n = "FreeLibrary" /\ FreeLibrary (env s') = 0
  end.

(** [wp m s Q]: the outcome of running [m] from [s] satisfies [Q].  The rules
    for native calls below quantify over the answer, so what is proved with
    them holds for every collaborator. *)
Definition wp {A} (m : M A) (s : state) (Q : outcome A -> Prop) : Prop := Q (m s).

(** ** The stages of an acquisition, as seen on the log *)

(** A startup call that reported success. *)
Definition is_started (e : event) : bool :=
  match e with EvGdiplusStartup _ _ st _ => st =? 0 | _ => false end.

(** The bitmap-data block [leanloader_load] hands to lock-bits for a
    [w] x [h] image and the buffer [p]; [b0] is the caller's block. *)
Definition lock_block (b0 : BitmapData) (w h : u32) (p : ptr) : BitmapData :=
  mkBitmapData w h (to_i32 (wrap32 (w * 4))) PixelFormat32bppARGB p
    (bd_Reserved b0).

(** [Rect rect = {0, 0, info->bd.w, info->bd.h}] *)
Definition full_rect (w h : u32) : Rect := mkRect 0 0 (to_i32 w) (to_i32 h).

(** Read, write and user-input-buffer lock modes together. *)
Definition lock_flags : u32 :=
  Z.lor (Z.lor ImageLockModeRead ImageLockModeWrite) ImageLockModeUserInputBuf.

(** [load_stages info evs r info']: once the registry is ready,
    [leanloader_load] on [info] logs [evs], returns [r] and leaves [info'].
    One constructor per place where the function returns. *)
Inductive load_stages (info : leanloader_image_info)
    : list event -> i32 -> leanloader_image_info -> Prop :=
| Decode_failed st g :
    st <> 0 ->
    load_stages info
      [EvCreateBitmapFromFile (name info) st g]
      0 (mkInfo (name info) (bd info) g)
| Width_failed g st w :
    st <> 0 ->
    load_stages info
      [EvCreateBitmapFromFile (name info) 0 g; EvGetImageWidth g st w;
       EvDisposeImage g]
      0 (mkInfo (name info) (set_bd_w w (bd info)) g)
| Height_failed g w st h :
    st <> 0 ->
    load_stages info
      [EvCreateBitmapFromFile (name info) 0 g; EvGetImageWidth g 0 w;
       EvGetImageHeight g st h; EvDisposeImage g]
      0 (mkInfo (name info) (set_bd_h h (set_bd_w w (bd info))) g)
| Alloc_failed g w h :
    load_stages info
      [EvCreateBitmapFromFile (name info) 0 g; EvGetImageWidth g 0 w;
       EvGetImageHeight g 0 h; EvGlobalAlloc GPTR (allocSize w h) 0;
       EvDisposeImage g]
      0 (mkInfo (name info)
           (set_bd_ptr 0 (set_bd_h h (set_bd_w w (bd info)))) g)
| Lock_failed g w h p st left :
    p <> 0 -> st <> 0 ->
    load_stages info
      [EvCreateBitmapFromFile (name info) 0 g; EvGetImageWidth g 0 w;
       EvGetImageHeight g 0 h; EvGlobalAlloc GPTR (allocSize w h) p;
       EvLockBits g (full_rect w h) lock_flags PixelFormat32bppARGB
         (lock_block (bd info) w h p) st left;
       EvGlobalFree (bd_ptr left); EvDisposeImage g]
      0 (mkInfo (name info) left g)
| Locked g w h p left :
    p <> 0 ->
    load_stages info
      [EvCreateBitmapFromFile (name info) 0 g; EvGetImageWidth g 0 w;
       EvGetImageHeight g 0 h; EvGlobalAlloc GPTR (allocSize w h) p;
       EvLockBits g (full_rect w h) lock_flags PixelFormat32bppARGB
         (lock_block (bd info) w h p) 0 left]
      1 (mkInfo (name info) left g).

(** Startup reports status 7. *)
Definition startup_refused : script :=
  mkScript [] 0x70000000 7 0 0x5000 0 10 0 10 0x9000 0.

(** ** The bindings of the registry, as seen on the log *)

(** The calls that fill the kernel half of [e], in the order of the source:
    each slot holds what the resolver answered for the symbol of its name. *)
Definition kernel_events (e : env_t) : list event :=
  [EvKernel32 (kernel32 e);
   EvGetGetProcAddress (kernel32 e) (GetProcAddress e);
   EvGetProcAddress (kernel32 e) "LoadLibraryA" (LoadLibraryA e);
   EvGetProcAddress (kernel32 e) "FreeLibrary" (FreeLibrary e);
   EvGetProcAddress (kernel32 e) "GlobalAlloc" (GlobalAlloc e);
   EvGetProcAddress (kernel32 e) "GlobalFree" (GlobalFree e);
   EvLoadLibraryA "gdiplus.dll" (gdiplus e)].

(** The same for the eight entry points of the imaging module. *)
Definition gdiplus_events (e : env_t) : list event :=
  [EvGetProcAddress (gdiplus e) "GdiplusStartup" (GdipStartup e);
   EvGetProcAddress (gdiplus e) "GdiplusShutdown" (GdipShutdown e);
   EvGetProcAddress (gdiplus e) "GdipCreateBitmapFromFile"
     (GdipCreateBitmapFromFile e);
   EvGetProcAddress (gdiplus e) "GdipDisposeImage" (GdipDisposeImage e);
   EvGetProcAddress (gdiplus e) "GdipGetImageWidth" (GdipGetImageWidth e);
   EvGetProcAddress (gdiplus e) "GdipGetImageHeight" (GdipGetImageHeight e);
   EvGetProcAddress (gdiplus e) "GdipBitmapLockBits" (GdipBitmapLockBits e);
   EvGetProcAddress (gdiplus e) "GdipBitmapUnlockBits" (GdipBitmapUnlockBits e)].

(** First-time initialisation followed by a release. *)
Definition init_then_release (N : natives) : M (i32 * i32) :=
  r <- leanloader_env_init N ;; r' <- leanloader_env_deinit ;; ret (r, r').

(** ** Resources, as seen on the log *)

(** Images obtained and given back, buffers obtained and given back, and
    locks obtained. *)
Definition is_create_ok (e : event) : bool :=
  match e with EvCreateBitmapFromFile _ st _ => st =? 0 | _ => false end.
Definition is_dispose_image (e : event) : bool :=
  match e with EvDisposeImage _ => true | _ => false end.
Definition is_alloc_ok (e : event) : bool :=
  match e with EvGlobalAlloc _ _ p => negb (p =? 0) | _ => false end.
Definition is_free (e : event) : bool :=
  match e with EvGlobalFree _ => true | _ => false end.
Definition is_lock_ok (e : event) : bool :=
  match e with EvLockBits _ _ _ _ _ st _ => st =? 0 | _ => false end.
Definition is_unlock (e : event) : bool :=
  match e with EvUnlockBits _ _ _ => true | _ => false end.

(** The calls that give something back. *)
Definition is_release (e : event) : bool :=
  is_unlock e || is_free e || is_dispose_image e || is_teardown e.

(** ** The debug driver

    [main] of the source, compiled when [_LEANLOADER_DEBUG] is set.  Its
    [info] is an uninitialised local: [junk] stands for what the stack held,
    and only the name is assigned before the two calls.  Falling off the end
    of [main] returns 0. *)
Definition main (N : natives) (junk : leanloader_image_info) : M i32 :=
  let info := mkInfo "leanloader.png" (bd junk) (gpbitmap junk) in
  '(_, info) <- leanloader_load N info ;;
  '(_, info) <- leanloader_dispose N info ;;
  ret 0.

(** A live registry whose count has reached the largest 32-bit value. *)
Definition saturated_state : state :=
  mkState (set_refcnt (2 ^ 32 - 1) (env loaded_state)) (log loaded_state).

(** What an uninitialised handle may hold. *)
Definition junk_info : leanloader_image_info :=
  mkInfo "" (mkBitmapData 7 7 7 7 0xdead 7) 0xbeef.

(** * Properties *)

(** ** Weakest-precondition rules *)

Lemma wp_bind {A B} (m : M A) (k : A -> M B) s Q :
  wp m s (fun o => match o with
                   | Done a s' => wp (k a) s' Q
                   | NullCall n s' => Q (NullCall n s')
                   end) ->
  wp (bind m k) s Q.
Proof. unfold wp, bind. destruct (m s); auto. Qed.

Lemma wp_ret {A} (a : A) s (Q : outcome A -> Prop) : Q (Done a s) -> wp (ret a) s Q.
Proof. auto. Qed.

Lemma wp_get s (Q : outcome env_t -> Prop) : Q (Done (env s) s) -> wp get_env s Q.
Proof. auto. Qed.

Lemma wp_modify f s (Q : outcome unit -> Prop) :
  Q (Done tt (mkState (f (env s)) (log s))) -> wp (modify_env f) s Q.
Proof. auto. Qed.

Lemma wp_direct {A} (ans : list event -> A) ev s (Q : outcome A -> Prop) :
  (forall a, Q (Done a (mkState (env s) (log s ++ [ev a])))) ->
  wp (direct ans ev) s Q.
Proof. unfold wp, direct. auto. Qed.

Lemma wp_call {A} n slot (ans : list event -> A) ev s (Q : outcome A -> Prop) :
  (slot (env s) = 0 -> Q (NullCall n s)) ->
  (slot (env s) <> 0 ->
   forall a, Q (Done a (mkState (env s) (log s ++ [ev a])))) ->
  wp (call n slot ans ev) s Q.
Proof.
  unfold wp, call, direct. intros H0 H1.
  destruct (Z.eqb_spec (slot (env s)) 0); auto.
Qed.

Lemma wp_if {A} (b : bool) (m1 m2 : M A) s Q :
  (b = true -> wp m1 s Q) -> (b = false -> wp m2 s Q) ->
  wp (if b then m1 else m2) s Q.
Proof. destruct b; auto. Qed.

Lemma wp_resolve N module symbol store s (Q : outcome unit -> Prop) :
  (GetProcAddress (env s) = 0 -> Q (NullCall "GetProcAddress" s)) ->
  (GetProcAddress (env s) <> 0 ->
   forall p, Q (Done tt (mkState (store p (env s))
                  (log s ++ [EvGetProcAddress (module (env s)) symbol p])))) ->
  wp (resolve N module symbol store) s Q.
Proof.
  intros H0 H1. unfold resolve.
  apply wp_bind, wp_get, wp_bind, wp_call; [exact H0|].
  intros Hg p. apply wp_modify, H1, Hg.
Qed.

Ltac wp_simpl :=
  cbn [env log fst snd token refcnt kernel32 gdiplus GetProcAddress LoadLibraryA
       FreeLibrary GlobalAlloc GlobalFree GdipStartup GdipShutdown
       GdipCreateBitmapFromFile GdipDisposeImage GdipGetImageWidth
       GdipGetImageHeight GdipBitmapLockBits GdipBitmapUnlockBits
       set_token set_refcnt set_kernel32 set_gdiplus set_GetProcAddress
       set_LoadLibraryA set_FreeLibrary set_GlobalAlloc set_GlobalFree
       set_GdipStartup set_GdipShutdown set_GdipCreateBitmapFromFile
       set_GdipDisposeImage set_GdipGetImageWidth set_GdipGetImageHeight
       set_GdipBitmapLockBits set_GdipBitmapUnlockBits] in *.

Ltac wp_step :=
  lazymatch goal with
  | |- wp (bind _ _) _ _ => apply wp_bind
  | |- wp (ret _) _ _ => apply wp_ret
  | |- wp get_env _ _ => apply wp_get
  | |- wp (modify_env _) _ _ => apply wp_modify
  | |- wp (direct _ _) _ _ => apply wp_direct; intros ?
  | |- wp (call _ _ _ _) _ _ =>
      apply wp_call; wp_simpl; [intros ?|intros ? ?]
  | |- wp (resolve _ _ _ _) _ _ =>
      apply wp_resolve; wp_simpl; [intros ?|intros ? ?]
  | |- wp (if _ then _ else _) _ _ => apply wp_if; intros ?
  | |- wp (match ?x with pair _ _ => _ end) _ _ => destruct x
  end; wp_simpl; try contradiction.


Lemma wp_weaken {A} (m : M A) s (Q Q' : outcome A -> Prop) :
  wp m s Q -> (forall o, Q o -> Q' o) -> wp m s Q'.
Proof. unfold wp. auto. Qed.

Lemma wp_bind_with {A B} (m : M A) (k : A -> M B) s Q' Q :
  wp m s Q' ->
  (forall o, Q' o -> match o with
                     | Done a s' => wp (k a) s' Q
                     | NullCall n s' => Q (NullCall n s')
                     end) ->
  wp (bind m k) s Q.
Proof. intros H HQ. apply wp_bind. eapply wp_weaken; eauto. Qed.

(** ** Integers *)

Lemma in_u32_wrap32 x : in_u32 (wrap32 x).
Proof. unfold in_u32, wrap32. apply Z.mod_pos_bound. lia. Qed.

Lemma wrap32_small x : in_u32 x -> wrap32 x = x.
Proof. unfold in_u32, wrap32. intros. apply Z.mod_small. lia. Qed.

Lemma to_i32_zero x : in_u32 x -> (to_i32 x = 0 <-> x = 0).
Proof.
  intros Hx. unfold to_i32. rewrite (wrap32_small x Hx).
  unfold in_u32 in Hx. destruct (Z.ltb_spec x (2 ^ 31)); lia.
Qed.

(** ** Counting events *)

Lemma count_app p l1 l2 : count p (l1 ++ l2) = (count p l1 + count p l2)%nat.
Proof. unfold count. rewrite filter_app, length_app. reflexivity. Qed.

(** ** The binding registry *)

(** A further [leanloader_env_init] while the count is not zero. *)
Lemma env_init_again N s :
  refcnt (env s) <> 0 ->
  leanloader_env_init N s =
  Done (to_i32 (wrap32 (refcnt (env s) + 1)))
       (mkState (set_refcnt (wrap32 (refcnt (env s) + 1)) (env s)) (log s)).
Proof.
  intros H. unfold leanloader_env_init, bind, get_env.
  destruct (Z.eqb_spec (refcnt (env s)) 0); [contradiction|reflexivity].
Qed.

Ltac log_shape :=
  repeat rewrite <- app_assoc; cbn [app];
  try (eexists; split; [reflexivity|]).

(** First-time initialisation: the new events, the count and the result. *)
Lemma env_init_first N s :
  refcnt (env s) = 0 ->
  wp (leanloader_env_init N) s (fun o =>
    match o with
    | Done r s' =>
        exists evs, log s' = log s ++ evs /\
          count is_shutdown evs = 0%nat /\
          (count is_startup evs <= 1)%nat /\
          refcnt (env s') = r /\
          (r = 0 \/ r = 1 /\ count is_startup evs = 1%nat)
    | NullCall _ _ => True
    end).
Proof.
  intros H. unfold leanloader_env_init.
  do 3 wp_step; rewrite H; cbn [Z.eqb]; repeat wp_step; try exact I.
  all: rewrite ?H; log_shape.
  all: cbn; repeat split; auto.
Qed.


(** [leanloader_env_deinit] in general: what it adds to the log, the count
    it leaves and the value it returns. *)
Lemma env_deinit_spec s :
  in_u32 (refcnt (env s)) ->
  wp leanloader_env_deinit s (fun o =>
    match o with
    | Done r s' =>
        exists evs, log s' = log s ++ evs /\
          r = to_i32 (refcnt (env s')) /\
          refcnt (env s') = Z.max 0 (refcnt (env s) - 1) /\
          evs = (if refcnt (env s) =? 1
                 then [EvGdiplusShutdown (token (env s));
                       EvFreeLibrary (gdiplus (env s))]
                 else [])
    | NullCall _ _ => True
    end).
Proof.
  intros Hu. unfold leanloader_env_deinit, in_u32 in *.
  repeat wp_step; try exact I.
  all: repeat match goal with
         | H : (_ <? _) = _ |- _ => apply Z.ltb_lt in H || apply Z.ltb_ge in H
         | H : (_ =? _) = _ |- _ => apply Z.eqb_eq in H || apply Z.eqb_neq in H
         end.
  all: try rewrite (wrap32_small (refcnt (env s) - 1)) in * by (unfold in_u32; lia).
  all: log_shape || (exists []; split; [now rewrite app_nil_r|]).
  all: destruct (Z.eqb_spec (refcnt (env s)) 1); try lia.
  all: repeat split; try reflexivity; try lia.
Qed.





Ltac bool_hyps :=
  repeat match goal with
    | H : (_ <? _) = true |- _ => apply Z.ltb_lt in H
    | H : (_ <? _) = false |- _ => apply Z.ltb_ge in H
    | H : (_ =? _) = true |- _ => apply Z.eqb_eq in H
    | H : (_ =? _) = false |- _ => apply Z.eqb_neq in H
    end.

Ltac which_slot :=
  repeat first [ left; split; [reflexivity|assumption]
               | split; [reflexivity|assumption]
               | right ].

Ltac find_in := cbn [In]; solve [repeat (first [left; reflexivity | right])].

(** C2, as the code has it: first-time initialisation fails (returns 0 and
    leaves the count at 0) exactly when the imaging module does not load or
    startup reports a nonzero status, and returns 1 otherwise; what symbol
    resolution returned is stored unchecked.  The call does not return only
    when an entry point it calls itself is null. *)
Theorem C2_init_fails_on_module_or_startup_only N s :
  refcnt (env s) = 0 ->
  first_init_outcome s (leanloader_env_init N s).
Proof.
  intros H.
  change (wp (leanloader_env_init N) s (first_init_outcome s)).
  unfold leanloader_env_init.
  do 3 wp_step; rewrite H; cbn [Z.eqb]; repeat wp_step; bool_hyps.
  all: unfold first_init_outcome; wp_simpl.
  all: try (rewrite ?H; log_shape; split; [reflexivity|]).
  all: try solve [which_slot].
  - left. split; [reflexivity|]. left. subst. find_in.
  - right. split; [reflexivity|].
    match goal with
    | Hm : ?m <> 0 |- context [EvGdiplusStartup _ _ ?u ?tok] =>
        exists m, tok; subst u; split; [exact Hm|]; split; find_in
    end.
  - left. split; [reflexivity|]. right.
    match goal with
    | Hu : ?u <> 0 |- context [EvGdiplusStartup _ _ ?u ?tok] =>
        exists u, tok; split; [exact Hu|]; find_in
    end.
Qed.

(** The registry is first used on the scripted collaborator. *)
Lemma C2_init_witness :
  refcnt (env state0) = 0 /\
  first_init_outcome state0
    (leanloader_env_init (scripted (all_ok 10 10)) state0).
Proof.
  split; [reflexivity|].
  apply (C2_init_fails_on_module_or_startup_only (scripted (all_ok 10 10)) state0).
  reflexivity.
Defined.

(** C2 as stated fails: with the decoder entry point unresolved, first-time
    initialisation still reports success, the registry then holds a null
    [GdipCreateBitmapFromFile] next to resolved entry points, and the
    acquisition calls through it. *)
Lemma C2_unresolved_symbol_is_not_terminal :
  let s' := final_state (leanloader_env_init (scripted decoder_unresolved) state0) in
  leanloader_env_init (scripted decoder_unresolved) state0 = Done 1 s' /\
  In (EvGetProcAddress 0x70000000 "GdipCreateBitmapFromFile" 0) (log s') /\
  GdipCreateBitmapFromFile (env s') = 0 /\
  GdipStartup (env s') <> 0 /\
  leanloader_load (scripted decoder_unresolved) (fresh_info "a.png") state0
    = NullCall "GdipCreateBitmapFromFile" s'.
Proof.
  vm_compute. repeat split; try discriminate. find_in.
Qed.

(** ** The acquisition protocol *)

(** A successful [leanloader_env_init] takes exactly one reference. *)
Lemma env_init_takes_one N s r s1 :
  in_u32 (refcnt (env s)) ->
  leanloader_env_init N s = Done r s1 -> r <> 0 ->
  refcnt (env s1) = refcnt (env s) + 1.
Proof.
  intros Hu Hinit Hr.
  destruct (Z.eq_dec (refcnt (env s)) 0) as [H0|H0].
  - pose proof (env_init_first N s H0) as Hi. unfold wp in Hi.
    rewrite Hinit in Hi.
    destruct Hi as (evs & _ & _ & _ & Hc & [Hz|[H1 _]]); [contradiction|].
    rewrite Hc, H0, H1. reflexivity.
  - rewrite env_init_again in Hinit by exact H0. inversion Hinit; subst.
    cbn [env refcnt set_refcnt] in *.
    pose proof (in_u32_wrap32 (refcnt (env s) + 1)) as Hw.
    rewrite to_i32_zero in Hr by exact Hw.
    unfold wrap32, in_u32 in *.
    destruct (Z.eq_dec (refcnt (env s) + 1) (2 ^ 32)) as [E|E].
    + rewrite E, Z.mod_same in Hr by lia. contradiction.
    + apply Z.mod_small. lia.
Qed.

(** After the registry is ready, [leanloader_load] does not touch [env]:
    whatever stage it stops at, the registry is as [leanloader_env_init]
    left it. *)
Lemma load_keeps_env N info s r1 s1 :
  leanloader_env_init N s = Done r1 s1 ->
  env (final_state (leanloader_load N info s)) = env s1.
Proof.
  intros Hinit. unfold leanloader_load. unfold bind at 1. rewrite Hinit.
  match goal with
  | |- env (final_state (?m s1)) = _ =>
      change (wp m s1 (fun o => env (final_state o) = env s1))
  end.
  unfold measure_allocate_lock.
  repeat wp_step; reflexivity.
Qed.

(** C1, as the code has it: an acquisition that passes stage 1 and then
    fails (at decode, measure, allocate or lock) returns with the registry's
    reference count one above its value before the call; the reference taken
    in stage 1 is still held. *)
Theorem C1_failed_load_keeps_its_reference N info s r1 s1 info' s' :
  in_u32 (refcnt (env s)) ->
  leanloader_env_init N s = Done r1 s1 -> r1 <> 0 ->
  leanloader_load N info s = Done (0, info') s' ->
  refcnt (env s') = refcnt (env s) + 1.
Proof.
  intros Hu Hinit Hr Hload.
  pose proof (load_keeps_env N info s r1 s1 Hinit) as Henv.
  rewrite Hload in Henv. cbn [final_state] in Henv.
  rewrite Henv. eapply env_init_takes_one; eauto.
Qed.

(** A decode failure on the scripted collaborator. *)
Lemma C1_failed_decode_witness :
  refcnt (env (final_state
    (leanloader_load (scripted decode_fails) (fresh_info "missing.png") state0)))
  = refcnt (env state0) + 1.
Proof.
  apply (C1_failed_load_keeps_its_reference (scripted decode_fails)
           (fresh_info "missing.png") state0 1
           (final_state (leanloader_env_init (scripted decode_fails) state0))
           (fresh_info "missing.png")).
  - unfold in_u32. cbn. lia.
  - vm_compute. reflexivity.
  - discriminate.
  - vm_compute. reflexivity.
Defined.

(** C1 as stated fails: the decode stage fails, [leanloader_load] returns 0,
    and the count that was 0 before the call is 1 after it. *)
Lemma C1_failed_decode_leaves_count_raised :
  let s' := final_state
      (leanloader_load (scripted decode_fails) (fresh_info "missing.png") state0) in
  leanloader_load (scripted decode_fails) (fresh_info "missing.png") state0
    = Done (0, fresh_info "missing.png") s' /\
  last (log s') (EvKernel32 0) = EvCreateBitmapFromFile "missing.png" 3 0 /\
  refcnt (env state0) = 0 /\ refcnt (env s') = 1 /\
  refcnt (env s') <> refcnt (env state0).
Proof.
  vm_compute. repeat split; discriminate.
Qed.

(** C3 fails on the code: when the lock stage fails, [leanloader_load] frees
    the buffer and disposes the image but leaves both pointers in the
    handle, so [leanloader_dispose] on that handle unlocks, frees and
    disposes again. *)
Theorem C3_dispose_after_failed_lock_calls_natives :
  let '(info, s) := after_load lock_fails "a.png" in
  leanloader_load (scripted lock_fails) (fresh_info "a.png") state0
    = Done (0, info) s /\
  gpbitmap info = 0x5000 /\ bd_ptr (bd info) = 0x9000 /\
  frees 0x9000 (log s) = 1%nat /\ disposals 0x5000 (log s) = 1%nat /\
  let s' := final_state (leanloader_dispose (scripted lock_fails) info s) in
  leanloader_dispose (scripted lock_fails) info s
    = Done (0, set_gpbitmap 0 (set_bd (set_bd_ptr 0 (bd info)) info)) s' /\
  log s' = log s ++ [EvUnlockBits 0x5000 (bd info) (bd info);
                     EvGlobalFree 0x9000; EvDisposeImage 0x5000;
                     EvGdiplusShutdown 0xabcd; EvFreeLibrary 0x70000000] /\
  frees 0x9000 (log s') = 2%nat /\ disposals 0x5000 (log s') = 2%nat.
Proof. vm_compute. repeat split. Qed.

(** The same slip after a failed measurement: the image is disposed inside
    [leanloader_load], its handle stays in [gpbitmap], and
    [leanloader_dispose] disposes it a second time. *)
Example failed_measure_leaves_image_handle :
  let '(info, s) := after_load width_fails "a.png" in
  leanloader_load (scripted width_fails) (fresh_info "a.png") state0
    = Done (0, info) s /\
  gpbitmap info = 0x5000 /\ disposals 0x5000 (log s) = 1%nat /\
  disposals 0x5000
    (log (final_state (leanloader_dispose (scripted width_fails) info s)))
    = 2%nat.
Proof. vm_compute. repeat split. Qed.

(** C4 fails on the code: after the lock stage has failed the handle still
    holds the buffer pointer, although the only lock-bits call returned a
    nonzero status and the buffer has been freed. *)
Theorem C4_failed_lock_leaves_buffer_pointer :
  let '(info, s) := after_load lock_fails "a.png" in
  leanloader_load (scripted lock_fails) (fresh_info "a.png") state0
    = Done (0, info) s /\
  bd_ptr (bd info) = 0x9000 /\ bd_ptr (bd info) <> 0 /\
  filter is_lock (log s)
    = [EvLockBits 0x5000 (mkRect 0 0 10 10) 7 PixelFormat32bppARGB
         (bd info) 3 (bd info)] /\
  frees 0x9000 (log s) = 1%nat.
Proof. vm_compute. repeat split. discriminate. Qed.

(** C5 fails on the code: a 32768 x 32769 image is acquired successfully
    with a 131072-byte buffer, where the pixel data takes 4295098368 bytes. *)
Theorem C5_large_image_gets_small_buffer :
  let '(info, s) := after_load (all_ok 32768 32769) "big.png" in
  leanloader_load (scripted (all_ok 32768 32769)) (fresh_info "big.png") state0
    = Done (1, info) s /\
  bd_w (bd info) = 32768 /\ bd_h (bd info) = 32769 /\
  bd_stride (bd info) = 32768 * 4 /\
  filter is_alloc (log s) = [EvGlobalAlloc GPTR 131072 0x9000] /\
  round64 (32768 * 32769 * 4) = 4295098368.
Proof. vm_compute. repeat split. Qed.

(** The 10 x 10 image of the design's scenario: stride 40, 448 bytes. *)
Example acquire_10_by_10 :
  let '(info, s) := after_load (all_ok 10 10) "a.png" in
  leanloader_load (scripted (all_ok 10 10)) (fresh_info "a.png") state0
    = Done (1, info) s /\
  bd_stride (bd info) = 40 /\
  filter is_alloc (log s) = [EvGlobalAlloc GPTR 448 0x9000] /\
  round64 (10 * 10 * 4) = 448.
Proof. vm_compute. repeat split. Qed.

(** From 2^29 pixels per row on, the stride is no longer [width * 4]. *)
Example stride_wraps_for_wide_image :
  let '(info, s) := after_load (all_ok (2 ^ 29) 1) "wide.png" in
  leanloader_load (scripted (all_ok (2 ^ 29) 1)) (fresh_info "wide.png") state0
    = Done (1, info) s /\
  bd_w (bd info) = 2 ^ 29 /\ bd_stride (bd info) = - 2 ^ 31.
Proof. vm_compute. repeat split. Qed.

(** ** The allocation size *)

Lemma land_mask64 z : in_u32 z -> Z.land z (wrap32 (Z.lnot 63)) = z / 64 * 64.
Proof.
  intros Hz. unfold in_u32 in Hz.
  change (wrap32 (Z.lnot 63)) with (Z.land (Z.lnot (Z.ones 6)) (Z.ones 32)).
  rewrite Z.land_assoc, <- Z.ldiff_land, Z.ldiff_ones_r by lia.
  rewrite Z.land_ones, Z.shiftl_mul_pow2, Z.shiftr_div_pow2 by lia.
  change (2 ^ 6) with 64. apply Z.mod_small.
  Z.div_mod_to_equations. lia.
Qed.

Lemma wrap32_mul4 w h : wrap32 (wrap32 (w * h) * 4) = wrap32 (w * h * 4).
Proof. unfold wrap32. rewrite Z.mul_mod_idemp_l by lia. reflexivity. Qed.

(** The C expression is the rounding of the wrapped product, wrapped. *)
Lemma allocSize_wrapped w h :
  allocSize w h = wrap32 (round64 (wrap32 (w * h * 4))).
Proof.
  unfold allocSize. rewrite wrap32_mul4.
  rewrite land_mask64 by apply in_u32_wrap32.
  pose proof (in_u32_wrap32 (w * h * 4)) as Hy.
  unfold round64, in_u32 in *. revert Hy.
  generalize (wrap32 (w * h * 4)). intros y Hy. unfold wrap32.
  change (2 ^ 32) with 4294967296 in *.
  Z.div_mod_to_equations. lia.
Qed.

(** Without overflow it is the next multiple of 64. *)
Lemma allocSize_exact w h :
  0 <= w * h * 4 -> w * h * 4 + 63 < 2 ^ 32 ->
  allocSize w h = round64 (w * h * 4).
Proof.
  intros H0 H1. rewrite allocSize_wrapped.
  rewrite (wrap32_small (w * h * 4)) by (unfold in_u32; lia).
  apply wrap32_small. unfold round64, in_u32.
  change (2 ^ 32) with 4294967296 in *.
  Z.div_mod_to_equations. lia.
Qed.

(** The registry's own calls are all that [leanloader_env_init] logs. *)
Lemma env_init_events N s :
  wp (leanloader_env_init N) s (fun o =>
    exists evs, log (final_state o) = log s ++ evs /\
      Forall (fun e => is_registry_event e = true) evs).
Proof.
  unfold leanloader_env_init.
  repeat wp_step; cbn [final_state log].
  all: log_shape || (exists []; split; [now rewrite app_nil_r|]).
  all: repeat constructor.
Qed.

Ltac pick_event H :=
  cbn [In] in H;
  repeat match type of H with
    | _ \/ _ => destruct H as [H|H]
    | False => contradiction
    end;
  try discriminate H.

(** Whatever [leanloader_load] allocates, it sizes with [allocSize]. *)
Lemma load_sized_allocations N info s :
  exists evs, log (final_state (leanloader_load N info s)) = log s ++ evs /\
    sized_allocations evs.
Proof.
  change (wp (leanloader_load N info) s (fun o =>
    exists evs, log (final_state o) = log s ++ evs /\ sized_allocations evs)).
  unfold leanloader_load.
  eapply wp_bind_with; [apply env_init_events|].
  intros o (evs0 & Hlog & Hreg).
  assert (forall f sz p, ~ In (EvGlobalAlloc f sz p) evs0) as Hno.
  { intros f sz p Hin. rewrite Forall_forall in Hreg.
    apply Hreg in Hin. discriminate. }
  destruct o as [r s1|n s1]; cbn [final_state] in *.
  2: { exists evs0. split; [exact Hlog|]. intros f sz p Hin.
       elim (Hno _ _ _ Hin). }
  unfold measure_allocate_lock.
  repeat wp_step; cbn [final_state log]; bool_hyps.
  all: rewrite Hlog; log_shape || (exists evs0; split; [reflexivity|]).
  all: intros ? ? ? Hin;
       try (apply in_app_or in Hin; destruct Hin as [Hin|Hin]);
       try (elim (Hno _ _ _ Hin)); pick_event Hin.
  all: inversion Hin; subst; split; [reflexivity|].
  all: do 3 eexists; split; [|split];
       [ apply in_or_app; right; cbn [In set_gpbitmap gpbitmap bd set_bd];
         do 1 right; left; reflexivity
       | apply in_or_app; right; cbn [In set_gpbitmap gpbitmap bd set_bd];
         do 2 right; left; reflexivity
       | reflexivity ].
Qed.

(** The rule for a call through a slot that keeps the collaborator's own
    answer. *)
Lemma wp_call_exact {A} n slot (ans : list event -> A) ev s
    (Q : outcome A -> Prop) :
  slot (env s) <> 0 ->
  Q (Done (ans (log s)) (mkState (env s) (log s ++ [ev (ans (log s))]))) ->
  wp (call n slot ans ev) s Q.
Proof.
  unfold wp, call, direct. intros Hs HQ.
  destruct (Z.eqb_spec (slot (env s)) 0); [contradiction|exact HQ].
Qed.

(** From the decode on, [leanloader_load] reaches the allocation whenever
    decode, width and height report status 0, whatever the width [w] and
    the height [h] are: the fourth call after stage 1 is
    [GlobalAlloc(GPTR, allocSize w h)]. *)
Lemma load_reaches_allocation N info s r1 s1 g w h :
  leanloader_env_init N s = Done r1 s1 -> r1 <> 0 ->
  GdipCreateBitmapFromFile (env s1) <> 0 ->
  GdipGetImageWidth (env s1) <> 0 ->
  GdipGetImageHeight (env s1) <> 0 ->
  GlobalAlloc (env s1) <> 0 ->
  os_GdipCreateBitmapFromFile N (log s1) (name info) 0 = (0, g) ->
  os_GdipGetImageWidth N
    (log s1 ++ [EvCreateBitmapFromFile (name info) 0 g]) g (bd_w (bd info))
    = (0, w) ->
  os_GdipGetImageHeight N
    (log s1 ++ [EvCreateBitmapFromFile (name info) 0 g; EvGetImageWidth g 0 w])
    g (bd_h (bd info))
    = (0, h) ->
  exists rest,
    log (final_state (leanloader_load N info s)) =
    log s1 ++
    [EvCreateBitmapFromFile (name info) 0 g; EvGetImageWidth g 0 w;
     EvGetImageHeight g 0 h;
     EvGlobalAlloc GPTR (allocSize w h)
       (os_GlobalAlloc N
          (log s1 ++ [EvCreateBitmapFromFile (name info) 0 g;
                      EvGetImageWidth g 0 w; EvGetImageHeight g 0 h])
          GPTR (allocSize w h))] ++ rest.
Proof.
  intros Hinit Hr1 Hc Hw Hh Ha Hcreate Hwidth Hheight.
  change (wp (leanloader_load N info) s (fun o =>
    exists rest,
      log (final_state o) =
      log s1 ++
      [EvCreateBitmapFromFile (name info) 0 g; EvGetImageWidth g 0 w;
       EvGetImageHeight g 0 h;
       EvGlobalAlloc GPTR (allocSize w h)
         (os_GlobalAlloc N
            (log s1 ++ [EvCreateBitmapFromFile (name info) 0 g;
                        EvGetImageWidth g 0 w; EvGetImageHeight g 0 h])
            GPTR (allocSize w h))] ++ rest)).
  unfold leanloader_load.
  eapply wp_bind_with;
    [exact (Hinit : wp (leanloader_env_init N) s (fun o => o = Done r1 s1))|].
  intros o ->.
  destruct (Z.eqb_spec r1 0); [contradiction|].
  apply wp_bind, wp_call_exact; [exact Hc|].
  cbn [name gpbitmap set_gpbitmap bd env log]. rewrite Hcreate.
  cbn [fst snd Z.eqb]. unfold measure_allocate_lock.
  apply wp_bind, wp_bind, wp_call_exact; [exact Hw|].
  cbn [name gpbitmap set_gpbitmap bd env log].
  rewrite <- app_assoc. cbn [app]. rewrite Hwidth.
  cbn [fst snd Z.eqb]. apply wp_bind, wp_call_exact; [exact Hh|].
  cbn [name gpbitmap set_gpbitmap bd set_bd bd_w bd_h set_bd_w set_bd_h
       env log].
  rewrite <- app_assoc. cbn [app]. rewrite Hheight.
  cbn [fst snd Z.eqb]. apply wp_bind, wp_call_exact; [exact Ha|].
  cbn [name gpbitmap set_gpbitmap bd set_bd bd_w bd_h set_bd_w set_bd_h
       env log].
  rewrite <- app_assoc. cbn [app].
  repeat wp_step; cbn [final_state log].
  all: eexists; repeat rewrite <- app_assoc; cbn [app]; reflexivity.
Qed.

(** C10, as the code has it: there is no overflow check.  Whenever decode,
    width and height report status 0 with a width [w] and a height [h]
    for which [w * h * 4] does not fit 32 bits, [leanloader_load] still
    calls the allocator, and the size it passes is [allocSize w h]: the
    rounding of [w * h * 4 mod 2^32] reduced once more modulo 2^32, which
    is smaller than the pixel data. *)
Theorem C10_load_allocates_wrapped_size N info s r1 s1 g w h :
  leanloader_env_init N s = Done r1 s1 -> r1 <> 0 ->
  GdipCreateBitmapFromFile (env s1) <> 0 ->
  GdipGetImageWidth (env s1) <> 0 ->
  GdipGetImageHeight (env s1) <> 0 ->
  GlobalAlloc (env s1) <> 0 ->
  os_GdipCreateBitmapFromFile N (log s1) (name info) 0 = (0, g) ->
  os_GdipGetImageWidth N
    (log s1 ++ [EvCreateBitmapFromFile (name info) 0 g]) g (bd_w (bd info))
    = (0, w) ->
  os_GdipGetImageHeight N
    (log s1 ++ [EvCreateBitmapFromFile (name info) 0 g; EvGetImageWidth g 0 w])
    g (bd_h (bd info))
    = (0, h) ->
  in_u32 w -> in_u32 h -> 2 ^ 32 <= w * h * 4 ->
  (exists rest,
      log (final_state (leanloader_load N info s)) =
      log s1 ++
      [EvCreateBitmapFromFile (name info) 0 g; EvGetImageWidth g 0 w;
       EvGetImageHeight g 0 h;
       EvGlobalAlloc GPTR (allocSize w h)
         (os_GlobalAlloc N
            (log s1 ++ [EvCreateBitmapFromFile (name info) 0 g;
                        EvGetImageWidth g 0 w; EvGetImageHeight g 0 h])
            GPTR (allocSize w h))] ++ rest) /\
  allocSize w h = wrap32 (round64 (wrap32 (w * h * 4))) /\
  allocSize w h < w * h * 4.
Proof.
  intros Hinit Hr1 Hc Hw Hh Ha Hcreate Hwidth Hheight Huw Huh Hbig.
  split; [eapply load_reaches_allocation; eassumption|].
  split; [apply allocSize_wrapped|].
  rewrite allocSize_wrapped.
  pose proof (in_u32_wrap32 (round64 (wrap32 (w * h * 4)))) as Hr.
  unfold in_u32 in Hr. lia.
Qed.

(** A 32768 x 32769 image on the scripted collaborator: 4295098368 bytes of
    pixels, 131072 asked of the allocator. *)
Lemma C10_wrapped_size_witness :
  let N := scripted (all_ok 32768 32769) in
  let info := fresh_info "big.png" in
  let s1 := final_state (leanloader_env_init N state0) in
  (exists rest,
      log (final_state (leanloader_load N info state0)) =
      log s1 ++
      [EvCreateBitmapFromFile (name info) 0 0x5000;
       EvGetImageWidth 0x5000 0 32768; EvGetImageHeight 0x5000 0 32769;
       EvGlobalAlloc GPTR (allocSize 32768 32769)
         (os_GlobalAlloc N
            (log s1 ++ [EvCreateBitmapFromFile (name info) 0 0x5000;
                        EvGetImageWidth 0x5000 0 32768;
                        EvGetImageHeight 0x5000 0 32769])
            GPTR (allocSize 32768 32769))] ++ rest) /\
  allocSize 32768 32769 = wrap32 (round64 (wrap32 (32768 * 32769 * 4))) /\
  allocSize 32768 32769 < 32768 * 32769 * 4.
Proof.
  intros N info s1.
  apply (C10_load_allocates_wrapped_size N info state0 1 s1 0x5000 32768 32769).
  - vm_compute. reflexivity.
  - discriminate.
  - vm_compute. discriminate.
  - vm_compute. discriminate.
  - vm_compute. discriminate.
  - vm_compute. discriminate.
  - reflexivity.
  - reflexivity.
  - reflexivity.
  - unfold in_u32. cbn. lia.
  - unfold in_u32. cbn. lia.
  - cbn. lia.
Defined.

(** C10 as stated fails at the top of the range: for a 2147483647 x 1 image
    [w * h * 4 mod 2^32] is 4294967292, whose rounding to a multiple of 64
    is 2^32, while the size the code passes to the allocator is 0. *)
Lemma C10_rounding_itself_wraps :
  let w := 2 ^ 31 - 1 in
  let h := 1 in
  let s := snd (after_load (all_ok w h) "line.png") in
  in_u32 w /\ in_u32 h /\ 2 ^ 32 <= w * h * 4 /\
  wrap32 (w * h * 4) = 4294967292 /\
  round64 (wrap32 (w * h * 4)) = 2 ^ 32 /\
  allocSize w h = 0 /\
  allocSize w h <> round64 (wrap32 (w * h * 4)) /\
  filter is_alloc (log s) = [EvGlobalAlloc GPTR 0 0x9000].
Proof.
  vm_compute. repeat split; discriminate.
Qed.

(** ** Disposal *)

Lemma state_eta s : mkState (env s) (log s) = s.
Proof. destruct s; reflexivity. Qed.

(** C6, as the code has it: the buffer steps are nested inside the image
    test.  With an image and a buffer, [leanloader_dispose] calls unlock-bits
    on the handle's bitmap-data block, frees the buffer, nulls the pointer,
    disposes the image and nulls it; with an image only, it disposes the
    image and nulls it; without an image it touches neither image nor
    buffer.  In every case the registry release comes last. *)
Theorem C6_dispose_order N info s :
  GdipBitmapUnlockBits (env s) <> 0 -> GlobalFree (env s) <> 0 ->
  GdipDisposeImage (env s) <> 0 ->
  let release evs info' :=
    (leanloader_env_deinit ;;; ret (0, info'))
      (mkState (env s) (log s ++ evs)) in
  (gpbitmap info = 0 -> leanloader_dispose N info s = release [] info) /\
  (gpbitmap info <> 0 -> bd_ptr (bd info) = 0 ->
   leanloader_dispose N info s =
   release [EvDisposeImage (gpbitmap info)] (set_gpbitmap 0 info)) /\
  (gpbitmap info <> 0 -> bd_ptr (bd info) <> 0 ->
   let b := os_GdipBitmapUnlockBits N (log s) (gpbitmap info) (bd info) in
   leanloader_dispose N info s =
   release [EvUnlockBits (gpbitmap info) (bd info) b; EvGlobalFree (bd_ptr b);
            EvDisposeImage (gpbitmap info)]
           (set_gpbitmap 0 (set_bd (set_bd_ptr 0 b) info))).
Proof.
  intros Hu Hf Hd release. subst release. cbv beta.
  apply Z.eqb_neq in Hu, Hf, Hd.
  unfold leanloader_dispose, bind, call, direct, ret.
  repeat split.
  - intros Hg. apply Z.eqb_eq in Hg. rewrite Hg, app_nil_r, state_eta.
    reflexivity.
  - intros Hg Hp. apply Z.eqb_neq in Hg. apply Z.eqb_eq in Hp.
    rewrite Hg, Hp, Hd. reflexivity.
  - intros Hg Hp. cbv zeta. apply Z.eqb_neq in Hg, Hp.
    rewrite Hg, Hp, Hu. cbn [env log]. rewrite Hf. cbn [env log].
    rewrite Hd. cbn [env log]. repeat rewrite <- app_assoc. reflexivity.
Qed.

(** Disposal of the acquired 10 x 10 image. *)
Lemma C6_dispose_loaded_witness :
  leanloader_dispose (scripted (all_ok 10 10)) loaded_info loaded_state =
  (leanloader_env_deinit ;;;
   ret (0, set_gpbitmap 0 (set_bd (set_bd_ptr 0 (bd loaded_info)) loaded_info)))
    (mkState (env loaded_state)
       (log loaded_state ++
        [EvUnlockBits 0x5000 (bd loaded_info) (bd loaded_info);
         EvGlobalFree 0x9000; EvDisposeImage 0x5000])).
Proof.
  assert (GdipBitmapUnlockBits (env loaded_state) <> 0) as Hu
    by (vm_compute; discriminate).
  assert (GlobalFree (env loaded_state) <> 0) as Hf
    by (vm_compute; discriminate).
  assert (GdipDisposeImage (env loaded_state) <> 0) as Hd
    by (vm_compute; discriminate).
  destruct (C6_dispose_order (scripted (all_ok 10 10)) loaded_info loaded_state
              Hu Hf Hd) as (_ & _ & H).
  apply H; vm_compute; discriminate.
Defined.

(** C6 as stated fails: for a handle with a buffer pointer and no image the
    code makes no call on the buffer and leaves the pointer, where the two
    tests taken one after the other would unlock and free it. *)
Lemma C6_buffer_without_image_is_left_alone :
  let N := scripted (all_ok 10 10) in
  let s' := final_state (leanloader_dispose N buffer_only loaded_state) in
  leanloader_dispose N buffer_only loaded_state = Done (0, buffer_only) s' /\
  log s' = log loaded_state ++
           [EvGdiplusShutdown 0xabcd; EvFreeLibrary 0x70000000] /\
  frees 0x9000 (log s') = 0%nat /\
  frees 0x9000 (log (final_state (dispose_in_sequence N buffer_only loaded_state)))
    = 1%nat /\
  leanloader_dispose N buffer_only loaded_state
    <> dispose_in_sequence N buffer_only loaded_state.
Proof.
  vm_compute. repeat split. discriminate.
Qed.

(** Shutdown and module unload are all that [leanloader_env_deinit] logs. *)
Lemma env_deinit_events s :
  wp leanloader_env_deinit s (fun o =>
    exists evs, log (final_state o) = log s ++ evs /\
      Forall (fun e => is_teardown e = true) evs).
Proof.
  unfold leanloader_env_deinit.
  repeat wp_step; cbn [final_state log].
  all: log_shape || (exists []; split; [now rewrite app_nil_r|]).
  all: repeat constructor.
Qed.

(** Teardown events free no buffer and dispose no image. *)
Lemma teardown_frees_nothing evs p g :
  Forall (fun e => is_teardown e = true) evs ->
  frees p evs = 0%nat /\ disposals g evs = 0%nat.
Proof.
  unfold frees, disposals, count.
  induction 1 as [|e evs' He _ IH]; [split; reflexivity|].
  destruct e; try discriminate He; cbn [filter]; exact IH.
Qed.

(** What [leanloader_dispose] leaves in the handle. *)
Lemma dispose_clears N info s r info1 s1 :
  leanloader_dispose N info s = Done (r, info1) s1 ->
  gpbitmap info1 = 0 /\ (gpbitmap info <> 0 -> bd_ptr (bd info1) = 0).
Proof.
  intros H.
  assert (wp (leanloader_dispose N info) s (fun o =>
            match o with
            | Done (_, i1) _ =>
                gpbitmap i1 = 0 /\ (gpbitmap info <> 0 -> bd_ptr (bd i1) = 0)
            | NullCall _ _ => True
            end)) as Hwp.
  { unfold leanloader_dispose, leanloader_env_deinit.
    repeat wp_step; bool_hyps; try exact I.
    all: cbn [gpbitmap set_gpbitmap bd set_bd bd_ptr set_bd_ptr].
    all: split; auto; intros; try contradiction; auto. }
  unfold wp in Hwp. rewrite H in Hwp. exact Hwp.
Qed.

(** C8: after a first [leanloader_dispose] has returned, the handle holds no
    image (and no buffer, if it held an image before), and a second
    [leanloader_dispose] is the registry release alone: the handle is
    unchanged and nothing but shutdown and module unload can be logged. *)
Theorem C8_second_dispose_only_releases N info s r info1 s1 :
  leanloader_dispose N info s = Done (r, info1) s1 ->
  gpbitmap info1 = 0 /\
  (gpbitmap info <> 0 -> bd_ptr (bd info1) = 0) /\
  leanloader_dispose N info1 s1 = (leanloader_env_deinit ;;; ret (0, info1)) s1 /\
  exists evs,
    log (final_state (leanloader_dispose N info1 s1)) = log s1 ++ evs /\
    Forall (fun e => is_teardown e = true) evs /\
    frees (bd_ptr (bd info)) evs = 0%nat /\
    disposals (gpbitmap info) evs = 0%nat.
Proof.
  intros H. destruct (dispose_clears N info s r info1 s1 H) as [Hg Hp].
  assert (leanloader_dispose N info1 s1
          = (leanloader_env_deinit ;;; ret (0, info1)) s1) as Heq.
  { unfold leanloader_dispose. rewrite Hg. cbn [Z.eqb].
    unfold bind at 1. reflexivity. }
  repeat split; auto.
  rewrite Heq. pose proof (env_deinit_events s1) as Hd. unfold wp in Hd.
  unfold bind, ret.
  destruct (leanloader_env_deinit s1) as [r2 s2|n s2]; cbn [final_state] in *.
  all: destruct Hd as (evs & Hlog & Hall); exists evs.
  all: split; [exact Hlog|]; split; [exact Hall|].
  all: apply teardown_frees_nothing; exact Hall.
Qed.

(** Disposing the acquired 10 x 10 image twice. *)
Lemma C8_double_dispose_witness :
  let N := scripted (all_ok 10 10) in
  let o := leanloader_dispose N loaded_info loaded_state in
  let info1 := set_gpbitmap 0 (set_bd (set_bd_ptr 0 (bd loaded_info)) loaded_info) in
  gpbitmap info1 = 0 /\
  (gpbitmap loaded_info <> 0 -> bd_ptr (bd info1) = 0) /\
  leanloader_dispose N info1 (final_state o)
    = (leanloader_env_deinit ;;; ret (0, info1)) (final_state o) /\
  exists evs,
    log (final_state (leanloader_dispose N info1 (final_state o)))
      = log (final_state o) ++ evs /\
    Forall (fun e => is_teardown e = true) evs /\
    frees (bd_ptr (bd loaded_info)) evs = 0%nat /\
    disposals (gpbitmap loaded_info) evs = 0%nat.
Proof.
  intros N o info1.
  apply (C8_second_dispose_only_releases N loaded_info loaded_state 0).
  vm_compute. reflexivity.
Defined.

(** C8 as stated fails in one clause: a handle that came to its first
    [leanloader_dispose] with a buffer pointer and no image (here an
    uninitialised handle whose acquisition failed at decode) keeps that
    pointer, so the second [leanloader_dispose] finds [gpbitmap] null and
    [bd.ptr] not null; it makes no call all the same. *)
Lemma C8_second_dispose_can_find_buffer_pointer :
  let N := scripted decode_fails in
  let h0 := mkInfo "" (bd junk_info) 0 in
  let s0 := final_state (leanloader_load N junk_info state0) in
  let s1 := final_state (leanloader_dispose N h0 s0) in
  leanloader_load N junk_info state0 = Done (0, h0) s0 /\
  leanloader_dispose N h0 s0 = Done (0, h0) s1 /\
  gpbitmap h0 = 0 /\ bd_ptr (bd h0) = 0xdead /\ bd_ptr (bd h0) <> 0 /\
  leanloader_dispose N h0 s1 = Done (0, h0) s1.
Proof.
  vm_compute. repeat split; discriminate.
Qed.

(** C9: with the teardown entry points resolved, [leanloader_dispose]
    returns for every handle, and whenever it returns it leaves the
    reference count one lower when it was positive and at 0 when it was 0;
    on a never-loaded handle, while one acquisition is live, it shuts the
    subsystem down. *)
Theorem C9_dispose_always_releases :
  (forall N info s,
      in_u32 (refcnt (env s)) -> teardown_bound (env s) ->
      exists info' s',
        leanloader_dispose N info s = Done (0, info') s' /\
        (0 < refcnt (env s) -> refcnt (env s') = refcnt (env s) - 1) /\
        (refcnt (env s) = 0 -> refcnt (env s') = 0)) /\
  (forall N info s r info' s',
      in_u32 (refcnt (env s)) ->
      leanloader_dispose N info s = Done (r, info') s' ->
      (0 < refcnt (env s) -> refcnt (env s') = refcnt (env s) - 1) /\
      (refcnt (env s) = 0 -> refcnt (env s') = 0)) /\
  (forall N file s,
      refcnt (env s) = 1 -> teardown_bound (env s) ->
      leanloader_dispose N (fresh_info file) s =
      Done (0, fresh_info file)
           (mkState (set_refcnt 0 (env s))
              (log s ++ [EvGdiplusShutdown (token (env s));
                         EvFreeLibrary (gdiplus (env s))]))).
Proof.
  split; [|split].
  - intros N info s Hu (Hun & Hfr & Hdi & Hsh & Hfl).
    assert (wp (leanloader_dispose N info) s (fun o =>
              match o with
              | Done (r, _) s' =>
                  r = 0 /\
                  (0 < refcnt (env s) -> refcnt (env s') = refcnt (env s) - 1) /\
                  (refcnt (env s) = 0 -> refcnt (env s') = 0)
              | NullCall _ _ => False
              end)) as Hwp.
    { unfold leanloader_dispose, leanloader_env_deinit, in_u32 in *.
      repeat wp_step; bool_hyps.
      all: try rewrite (wrap32_small (refcnt (env s) - 1))
             by (unfold in_u32; lia).
      all: repeat split; intros; lia. }
    unfold wp in Hwp.
    destruct (leanloader_dispose N info s) as [[r info'] s'|]; [|contradiction].
    destruct Hwp as (-> & H1 & H2). exists info', s'. auto.
  - intros N info s r info' s' Hu Hrun.
    assert (wp (leanloader_dispose N info) s (fun o =>
              match o with
              | Done _ s' =>
                  (0 < refcnt (env s) -> refcnt (env s') = refcnt (env s) - 1) /\
                  (refcnt (env s) = 0 -> refcnt (env s') = 0)
              | NullCall _ _ => True
              end)) as Hwp.
    { unfold leanloader_dispose, leanloader_env_deinit, in_u32 in *.
      repeat wp_step; bool_hyps; try exact I.
      all: try rewrite (wrap32_small (refcnt (env s) - 1))
             by (unfold in_u32; lia).
      all: repeat split; intros; lia. }
    unfold wp in Hwp. rewrite Hrun in Hwp. exact Hwp.
  - intros N file s H1 (_ & _ & _ & Hsh & Hfl).
    match goal with
    | |- ?m s = ?o => change (wp m s (fun o' => o' = o))
    end.
    unfold leanloader_dispose, leanloader_env_deinit.
    cbn [fresh_info gpbitmap Z.eqb].
    repeat wp_step; bool_hyps.
    all: rewrite H1 in *; try discriminate.
    all: change (wrap32 (1 - 1)) with 0 in *; try (exfalso; lia).
    repeat rewrite <- app_assoc. reflexivity.
Qed.

(** A never-loaded handle, and a handle with a stray buffer pointer,
    disposed while the 10 x 10 image is live. *)
Lemma C9_stray_dispose_witness :
  (exists info' s',
      leanloader_dispose (scripted (all_ok 10 10)) buffer_only loaded_state
        = Done (0, info') s' /\
      (0 < refcnt (env loaded_state) ->
       refcnt (env s') = refcnt (env loaded_state) - 1) /\
      (refcnt (env loaded_state) = 0 -> refcnt (env s') = 0)) /\
  leanloader_dispose (scripted (all_ok 10 10)) (fresh_info "never.png") loaded_state
  = Done (0, fresh_info "never.png")
      (mkState (set_refcnt 0 (env loaded_state))
         (log loaded_state ++
          [EvGdiplusShutdown (token (env loaded_state));
           EvFreeLibrary (gdiplus (env loaded_state))])).
Proof.
  destruct C9_dispose_always_releases as (Hany & _ & Hfresh).
  split.
  - apply Hany.
    + vm_compute. split; [discriminate|reflexivity].
    + vm_compute. repeat split; discriminate.
  - apply Hfresh.
    + vm_compute. reflexivity.
    + vm_compute. repeat split; discriminate.
Defined.

(** * Further properties of the code *)

(** ** Where an acquisition can stop *)

(** Once the registry is ready, a returning [leanloader_load] has taken one
    of the six ways through its stages. *)
Lemma load_stages_after_init N info s r1 s1 r info' s' :
  leanloader_env_init N s = Done r1 s1 -> r1 <> 0 ->
  leanloader_load N info s = Done (r, info') s' ->
  exists evs, log s' = log s1 ++ evs /\ load_stages info evs r info'.
Proof.
  intros Hinit Hr1 Hload.
  unfold leanloader_load in Hload. unfold bind at 1 in Hload.
  rewrite Hinit in Hload.
  destruct (Z.eqb_spec r1 0); [contradiction|].
  match type of Hload with
  | ?m s1 = _ =>
      assert (wp m s1 (fun o =>
        match o with
        | Done (r, info') s' =>
            exists evs, log s' = log s1 ++ evs /\ load_stages info evs r info'
        | NullCall _ _ => True
        end)) as Hwp
  end.
  { unfold measure_allocate_lock.
    repeat wp_step; bool_hyps; try exact I.
    all: subst; log_shape.
    all: cbn [gpbitmap set_gpbitmap bd set_bd name bd_w bd_h set_bd_w set_bd_h
              set_bd_ptr set_bd_stride set_bd_PixelFormat bd_ptr bd_stride
              bd_PixelFormat bd_Reserved].
    all: constructor; assumption. }
  unfold wp in Hwp. rewrite Hload in Hwp. exact Hwp.
Qed.

(** A returning [leanloader_load] got an answer from
    [leanloader_env_init]; when that answer was 0 it did nothing more. *)
Lemma load_init_done N info s r info' s' :
  leanloader_load N info s = Done (r, info') s' ->
  exists r1 s1, leanloader_env_init N s = Done r1 s1 /\
    (r1 = 0 -> r = 0 /\ s' = s1 /\ info' = set_gpbitmap 0 info).
Proof.
  intros Hload. unfold leanloader_load in Hload. unfold bind at 1 in Hload.
  destruct (leanloader_env_init N s) as [r1 s1|] eqn:Hinit; [|discriminate].
  exists r1, s1. split; [reflexivity|]. intros ->.
  cbn [Z.eqb] in Hload. inversion Hload; subst. auto.
Qed.

(** X1: after stage 1, a returning [leanloader_load] has gone one of six ways,
    each with its own calls in this order: decode failed (nothing to undo);
    width or height failed (image disposed); allocation failed (image
    disposed); lock failed (buffer freed, then image disposed); or all
    stages passed, with one lock-bits call on the full rectangle in read,
    write and user-buffer mode, on a block carrying the reported size, the
    wrapped stride, the 32-bit ARGB tag and the new buffer. *)
Theorem load_takes_one_of_six_paths N info s r1 s1 r info' s' :
  leanloader_env_init N s = Done r1 s1 -> r1 <> 0 ->
  leanloader_load N info s = Done (r, info') s' ->
  exists evs, log s' = log s1 ++ evs /\ load_stages info evs r info'.
Proof. exact (load_stages_after_init N info s r1 s1 r info' s'). Qed.

(** The lock stage fails on the scripted collaborator. *)
Lemma load_takes_one_of_six_paths_witness :
  exists evs,
    log (snd (after_load lock_fails "a.png")) =
    log (final_state (leanloader_env_init (scripted lock_fails) state0)) ++ evs /\
    load_stages (fresh_info "a.png") evs 0 (fst (after_load lock_fails "a.png")).
Proof.
  apply (load_takes_one_of_six_paths (scripted lock_fails) (fresh_info "a.png")
           state0 1).
  - vm_compute. reflexivity.
  - discriminate.
  - vm_compute. reflexivity.
Defined.

Ltac eqb_rewrite :=
  repeat match goal with
    | H : ?x <> 0 |- context [?x =? 0] =>
        rewrite (proj2 (Z.eqb_neq x 0) H)
    end.

(** X2: after stage 1, a failed [leanloader_load] has given back what it
    obtained: as many images disposed as created, as many buffers freed as
    allocated, and no lock held.  A successful one holds one image, one
    buffer and one lock, and has given nothing back. *)
Theorem load_gives_back_on_failure N info s r1 s1 r info' s' :
  leanloader_env_init N s = Done r1 s1 -> r1 <> 0 ->
  leanloader_load N info s = Done (r, info') s' ->
  exists evs, log s' = log s1 ++ evs /\
    (r = 0 /\
     count is_create_ok evs = count is_dispose_image evs /\
     count is_alloc_ok evs = count is_free evs /\
     count is_lock_ok evs = 0%nat
     \/
     r = 1 /\
     count is_create_ok evs = 1%nat /\ count is_dispose_image evs = 0%nat /\
     count is_alloc_ok evs = 1%nat /\ count is_free evs = 0%nat /\
     count is_lock_ok evs = 1%nat).
Proof.
  intros Hinit Hr1 Hload.
  destruct (load_stages_after_init N info s r1 s1 r info' s' Hinit Hr1 Hload)
    as (evs & Hlog & Hst).
  exists evs. split; [exact Hlog|].
  destruct Hst; [left|left|left|left|left|right].
  all: unfold count; cbn [filter is_create_ok is_dispose_image is_alloc_ok
                          is_free is_lock_ok]; eqb_rewrite;
       cbn [Z.eqb negb filter Datatypes.length]; repeat split.
Qed.

(** The lock stage fails on the scripted collaborator: one image created
    and disposed, one buffer allocated and freed. *)
Lemma load_gives_back_witness :
  exists evs,
    log (snd (after_load lock_fails "a.png")) =
    log (final_state (leanloader_env_init (scripted lock_fails) state0)) ++ evs /\
    (0 = 0 /\
     count is_create_ok evs = count is_dispose_image evs /\
     count is_alloc_ok evs = count is_free evs /\
     count is_lock_ok evs = 0%nat
     \/
     0 = 1 /\
     count is_create_ok evs = 1%nat /\ count is_dispose_image evs = 0%nat /\
     count is_alloc_ok evs = 1%nat /\ count is_free evs = 0%nat /\
     count is_lock_ok evs = 1%nat).
Proof.
  apply (load_gives_back_on_failure (scripted lock_fails) (fresh_info "a.png")
           state0 1
           (final_state (leanloader_env_init (scripted lock_fails) state0))
           0 (fst (after_load lock_fails "a.png"))
           (snd (after_load lock_fails "a.png"))).
  - vm_compute. reflexivity.
  - discriminate.
  - vm_compute. reflexivity.
Defined.

(** ** The allocation size and the stride in range *)

(** X4: the size handed to the allocator is always a 32-bit multiple of 64. *)
Theorem allocSize_is_padded w h :
  allocSize w h mod 64 = 0 /\ in_u32 (allocSize w h).
Proof.
  unfold allocSize.
  pose proof (in_u32_wrap32 (wrap32 (wrap32 (w * h) * 4) + 63)) as Hz.
  rewrite land_mask64 by exact Hz.
  revert Hz. generalize (wrap32 (wrap32 (wrap32 (w * h) * 4) + 63)).
  intros z Hz. unfold in_u32 in *. split.
  - apply Z.mod_mul. lia.
  - change (2 ^ 32) with 4294967296 in *. Z.div_mod_to_equations. lia.
Qed.

(** X5: while [w * h * 4 + 63] fits 32 bits the buffer covers the pixel data
    and is padded by less than 64 bytes. *)
Theorem allocSize_covers_pixels w h :
  0 <= w * h * 4 -> w * h * 4 + 63 < 2 ^ 32 ->
  w * h * 4 <= allocSize w h < w * h * 4 + 64.
Proof.
  intros H0 H1. rewrite allocSize_exact by assumption.
  unfold round64. Z.div_mod_to_equations. lia.
Qed.

(** The 10 x 10 image: 400 bytes of pixels, 448 allocated. *)
Lemma allocSize_covers_pixels_witness :
  10 * 10 * 4 <= allocSize 10 10 < 10 * 10 * 4 + 64.
Proof.
  apply (allocSize_covers_pixels 10 10); cbn; lia.
Defined.

(** Below 2^29 pixels per row the wrapped stride is [w * 4]. *)
Lemma stride_in_range w :
  0 <= w < 2 ^ 29 -> to_i32 (wrap32 (w * 4)) = w * 4.
Proof.
  intros Hw. unfold to_i32.
  assert (in_u32 (w * 4)) as Hu
    by (unfold in_u32; change (2 ^ 32) with 4294967296;
        change (2 ^ 29) with 536870912 in Hw; lia).
  rewrite !(wrap32_small (w * 4)) by exact Hu.
  change (2 ^ 29) with 536870912 in Hw.
  destruct (Z.ltb_spec (w * 4) (2 ^ 31)) as [|Hge]; [reflexivity|].
  change (2 ^ 31) with 2147483648 in Hge. lia.
Qed.

(** X3: a successful acquisition of an image whose reported width is below 2^29
    and whose pixel data plus 63 fits 32 bits: the buffer asked for is the
    next multiple of 64 at or above [w * h * 4], and the block given to
    lock-bits has stride [w * 4]; the handle gets the image and the block
    that lock-bits left. *)
Theorem load_in_range_sizes_exactly N info s r1 s1 info' s' :
  leanloader_env_init N s = Done r1 s1 -> r1 <> 0 ->
  leanloader_load N info s = Done (1, info') s' ->
  exists g w h p left,
    p <> 0 /\ info' = mkInfo (name info) left g /\
    log s' = log s1 ++
      [EvCreateBitmapFromFile (name info) 0 g; EvGetImageWidth g 0 w;
       EvGetImageHeight g 0 h; EvGlobalAlloc GPTR (allocSize w h) p;
       EvLockBits g (full_rect w h) lock_flags PixelFormat32bppARGB
         (lock_block (bd info) w h p) 0 left] /\
    (0 <= w < 2 ^ 29 -> bd_stride (lock_block (bd info) w h p) = w * 4) /\
    (0 <= w * h * 4 -> w * h * 4 + 63 < 2 ^ 32 ->
     allocSize w h = round64 (w * h * 4)).
Proof.
  intros Hinit Hr1 Hload.
  destruct (load_stages_after_init N info s r1 s1 1 info' s' Hinit Hr1 Hload)
    as (evs & Hlog & Hst).
  inversion Hst; subst.
  exists g, w, h, p, left.
  split; [assumption|]. split; [reflexivity|]. split; [exact Hlog|].
  split; [intros Hw; apply stride_in_range; exact Hw | apply allocSize_exact].
Qed.

(** The 10 x 10 image on the scripted collaborator. *)
Lemma load_in_range_witness :
  exists g w h p left,
    p <> 0 /\ loaded_info = mkInfo (name (fresh_info "a.png")) left g /\
    log loaded_state =
      log (final_state (leanloader_env_init (scripted (all_ok 10 10)) state0)) ++
      [EvCreateBitmapFromFile (name (fresh_info "a.png")) 0 g;
       EvGetImageWidth g 0 w;
       EvGetImageHeight g 0 h; EvGlobalAlloc GPTR (allocSize w h) p;
       EvLockBits g (full_rect w h) lock_flags PixelFormat32bppARGB
         (lock_block (bd (fresh_info "a.png")) w h p) 0 left] /\
    (0 <= w < 2 ^ 29 ->
     bd_stride (lock_block (bd (fresh_info "a.png")) w h p) = w * 4) /\
    (0 <= w * h * 4 -> w * h * 4 + 63 < 2 ^ 32 ->
     allocSize w h = round64 (w * h * 4)).
Proof.
  apply (load_in_range_sizes_exactly (scripted (all_ok 10 10))
           (fresh_info "a.png") state0 1).
  - vm_compute. reflexivity.
  - discriminate.
  - vm_compute. reflexivity.
Defined.

(** ** What first-time initialisation binds *)

(** The log and the result of a successful first-time initialisation. *)
Lemma first_init_success N s r s' :
  refcnt (env s) = 0 ->
  leanloader_env_init N s = Done r s' -> r <> 0 ->
  r = 1 /\ refcnt (env s') = 1 /\ gdiplus (env s') <> 0 /\
  GetProcAddress (env s') <> 0 /\ LoadLibraryA (env s') <> 0 /\
  GdipStartup (env s') <> 0 /\
  log s' = log s ++ kernel_events (env s') ++ gdiplus_events (env s') ++
           [EvGdiplusStartup startup_input 0 0 (token (env s'))].
Proof.
  intros H0 Hinit Hr.
  assert (wp (leanloader_env_init N) s (fun o =>
    match o with
    | Done r s' =>
        r <> 0 ->
        r = 1 /\ refcnt (env s') = 1 /\ gdiplus (env s') <> 0 /\
        GetProcAddress (env s') <> 0 /\ LoadLibraryA (env s') <> 0 /\
        GdipStartup (env s') <> 0 /\
        log s' = log s ++ kernel_events (env s') ++ gdiplus_events (env s') ++
                 [EvGdiplusStartup startup_input 0 0 (token (env s'))]
    | NullCall _ _ => True
    end)) as Hwp.
  { unfold leanloader_env_init.
    do 3 wp_step; rewrite H0; cbn [Z.eqb]; repeat wp_step; bool_hyps;
      try exact I.
    all: rewrite ?H0; intros Hnz;
         try (exfalso; apply Hnz; reflexivity).
    subst. unfold kernel_events, gdiplus_events. wp_simpl.
    repeat rewrite <- app_assoc. cbn [app].
    repeat split; assumption || reflexivity. }
  unfold wp in Hwp. rewrite Hinit in Hwp. auto.
Qed.

(** X6: a successful first-time [leanloader_env_init] logs exactly the
    resolutions that its result holds, then one successful startup: every
    slot of [env] is bound to the symbol of its own name, the kernel entry
    points in kernel32 and the imaging ones in the module just loaded, and
    the entry points it called were not null. *)
Theorem first_init_binds_every_slot N s r s' :
  refcnt (env s) = 0 ->
  leanloader_env_init N s = Done r s' -> r <> 0 ->
  r = 1 /\ refcnt (env s') = 1 /\ gdiplus (env s') <> 0 /\
  GetProcAddress (env s') <> 0 /\ LoadLibraryA (env s') <> 0 /\
  GdipStartup (env s') <> 0 /\
  log s' = log s ++ kernel_events (env s') ++ gdiplus_events (env s') ++
           [EvGdiplusStartup startup_input 0 0 (token (env s'))].
Proof. exact (first_init_success N s r s'). Qed.

(** First-time initialisation of the scripted collaborator. *)
Lemma first_init_binds_witness :
  let s' := final_state (leanloader_env_init (scripted (all_ok 10 10)) state0) in
  1 = 1 /\ refcnt (env s') = 1 /\ gdiplus (env s') <> 0 /\
  GetProcAddress (env s') <> 0 /\ LoadLibraryA (env s') <> 0 /\
  GdipStartup (env s') <> 0 /\
  log s' = log state0 ++ kernel_events (env s') ++ gdiplus_events (env s') ++
           [EvGdiplusStartup startup_input 0 0 (token (env s'))].
Proof.
  intros s'.
  apply (first_init_binds_every_slot (scripted (all_ok 10 10)) state0 1 s').
  - reflexivity.
  - vm_compute. reflexivity.
  - discriminate.
Defined.

(** The log and the result of a failed first-time initialisation. *)
Lemma first_init_failure N s s' :
  refcnt (env s) = 0 ->
  leanloader_env_init N s = Done 0 s' ->
  refcnt (env s') = 0 /\
  (gdiplus (env s') = 0 /\ log s' = log s ++ kernel_events (env s') \/
   gdiplus (env s') <> 0 /\
   exists st, st <> 0 /\
     log s' = log s ++ kernel_events (env s') ++ gdiplus_events (env s') ++
              [EvGdiplusStartup startup_input 0 st (token (env s'));
               EvFreeLibrary (gdiplus (env s'))]).
Proof.
  intros H0 Hinit.
  assert (wp (leanloader_env_init N) s (fun o =>
    match o with
    | Done r s' =>
        r = 0 ->
        refcnt (env s') = 0 /\
        (gdiplus (env s') = 0 /\ log s' = log s ++ kernel_events (env s') \/
         gdiplus (env s') <> 0 /\
         exists st, st <> 0 /\
           log s' = log s ++ kernel_events (env s') ++ gdiplus_events (env s') ++
                    [EvGdiplusStartup startup_input 0 st (token (env s'));
                     EvFreeLibrary (gdiplus (env s'))])
    | NullCall _ _ => True
    end)) as Hwp.
  { unfold leanloader_env_init.
    do 3 wp_step; rewrite H0; cbn [Z.eqb]; repeat wp_step; bool_hyps;
      try exact I.
    all: rewrite ?H0; intros Hz; try discriminate Hz.
    all: unfold kernel_events, gdiplus_events; wp_simpl.
    all: repeat rewrite <- app_assoc; cbn [app].
    all: split; [reflexivity|].
    - left. subst. split; reflexivity.
    - right. split; [assumption|].
      match goal with
      | Hu : ?u <> 0 |- context [EvGdiplusStartup _ _ ?u _] =>
          exists u; split; [exact Hu | reflexivity]
      end. }
  unfold wp in Hwp. rewrite Hinit in Hwp. auto.
Qed.

(** X7: a failed first-time [leanloader_env_init] leaves the count at 0 and
    holds no module: either the module did not load, and then no imaging
    entry point was resolved or called, or startup reported a nonzero
    status, and then the module it had loaded was unloaded again as the
    last call. *)
Theorem failed_first_init_rolls_back N s s' :
  refcnt (env s) = 0 ->
  leanloader_env_init N s = Done 0 s' ->
  refcnt (env s') = 0 /\
  (gdiplus (env s') = 0 /\ log s' = log s ++ kernel_events (env s') \/
   gdiplus (env s') <> 0 /\
   exists st, st <> 0 /\
     log s' = log s ++ kernel_events (env s') ++ gdiplus_events (env s') ++
              [EvGdiplusStartup startup_input 0 st (token (env s'));
               EvFreeLibrary (gdiplus (env s'))]).
Proof. exact (first_init_failure N s s'). Qed.

(** Startup refused on the scripted collaborator. *)
Lemma failed_first_init_witness :
  let s' := final_state (leanloader_env_init (scripted startup_refused) state0) in
  refcnt (env s') = 0 /\
  (gdiplus (env s') = 0 /\ log s' = log state0 ++ kernel_events (env s') \/
   gdiplus (env s') <> 0 /\
   exists st, st <> 0 /\
     log s' = log state0 ++ kernel_events (env s') ++ gdiplus_events (env s') ++
              [EvGdiplusStartup startup_input 0 st (token (env s'));
               EvFreeLibrary (gdiplus (env s'))]).
Proof.
  intros s'.
  apply (failed_first_init_rolls_back (scripted startup_refused) state0 s').
  - reflexivity.
  - vm_compute. reflexivity.
Defined.

(** X8: a session of one: when first-time initialisation succeeds and the
    reference is released, shutdown gets the token that startup handed out
    and the module unloaded is the one that was loaded; the count is 0
    again. *)
Theorem init_then_release_hands_back N s r r' s2 :
  refcnt (env s) = 0 ->
  init_then_release N s = Done (r, r') s2 -> r <> 0 ->
  r' = 0 /\ refcnt (env s2) = 0 /\
  exists m tok evs,
    In (EvLoadLibraryA "gdiplus.dll" m) evs /\
    log s2 = log s ++ evs ++
             [EvGdiplusStartup startup_input 0 0 tok;
              EvGdiplusShutdown tok; EvFreeLibrary m].
Proof.
  intros H0 Hrun Hr. unfold init_then_release in Hrun.
  unfold bind at 1 in Hrun.
  destruct (leanloader_env_init N s) as [r1 s1|] eqn:Hinit; [|discriminate].
  unfold bind at 1 in Hrun.
  destruct (leanloader_env_deinit s1) as [r2 s3|] eqn:Hde; [|discriminate].
  inversion Hrun; subst.
  destruct (first_init_success N s r s1 H0 Hinit Hr)
    as (_ & Hc & _ & _ & _ & _ & Hlog).
  assert (in_u32 (refcnt (env s1))) as Hu by (rewrite Hc; unfold in_u32; lia).
  pose proof (env_deinit_spec s1 Hu) as Hd. unfold wp in Hd.
  rewrite Hde in Hd. destruct Hd as (evs' & Hlog' & Hr' & Hc' & Hevs).
  rewrite Hc in Hc', Hevs. cbn in Hc', Hevs. subst evs'.
  rewrite Hc' in Hr'. split; [exact Hr'|]. split; [exact Hc'|].
  exists (gdiplus (env s1)), (token (env s1)),
         (kernel_events (env s1) ++ gdiplus_events (env s1)).
  split.
  - apply in_or_app. left. unfold kernel_events. find_in.
  - rewrite Hlog', Hlog. repeat rewrite <- app_assoc. reflexivity.
Qed.

(** The session of one on the scripted collaborator. *)
Lemma init_then_release_witness :
  let s2 := final_state (init_then_release (scripted (all_ok 10 10)) state0) in
  0 = 0 /\ refcnt (env s2) = 0 /\
  exists m tok evs,
    In (EvLoadLibraryA "gdiplus.dll" m) evs /\
    log s2 = log state0 ++ evs ++
             [EvGdiplusStartup startup_input 0 0 tok;
              EvGdiplusShutdown tok; EvFreeLibrary m].
Proof.
  intros s2.
  apply (init_then_release_hands_back (scripted (all_ok 10 10)) state0 1 0 s2).
  - reflexivity.
  - vm_compute. reflexivity.
  - discriminate.
Defined.

(** ** Acquisition and disposal together *)

(** A returning [leanloader_dispose] is its calls on the handle followed by
    the registry release. *)
Lemma dispose_then_release N info s r info' s' :
  leanloader_dispose N info s = Done (r, info') s' ->
  exists evs rd,
    leanloader_env_deinit (mkState (env s) (log s ++ evs)) = Done rd s' /\
    r = 0 /\
    (gpbitmap info = 0 /\ evs = [] /\ info' = info
     \/
     gpbitmap info <> 0 /\ bd_ptr (bd info) = 0 /\
     evs = [EvDisposeImage (gpbitmap info)] /\ info' = set_gpbitmap 0 info
     \/
     gpbitmap info <> 0 /\ bd_ptr (bd info) <> 0 /\
     exists b,
       evs = [EvUnlockBits (gpbitmap info) (bd info) b;
              EvGlobalFree (bd_ptr b); EvDisposeImage (gpbitmap info)] /\
       info' = set_gpbitmap 0 (set_bd (set_bd_ptr 0 b) info)).
Proof.
  unfold leanloader_dispose, bind, call, direct, ret. intros H.
  destruct (Z.eqb_spec (gpbitmap info) 0) as [Hg|Hg].
  - exists []. rewrite app_nil_r, state_eta.
    destruct (leanloader_env_deinit s) as [rd s2|]; [|discriminate].
    inversion H; subst. exists rd.
    split; [reflexivity|]. split; [reflexivity|]. left. auto.
  - destruct (Z.eqb_spec (bd_ptr (bd info)) 0) as [Hp|Hp].
    + destruct (GdipDisposeImage (env s) =? 0); [discriminate|].
      cbn [env log] in H.
      match type of H with
      | match leanloader_env_deinit ?st with _ => _ end = _ =>
          destruct (leanloader_env_deinit st) as [rd s2|] eqn:Hd;
            [|discriminate]
      end.
      inversion H; subst. exists [EvDisposeImage (gpbitmap info)], rd.
      split; [exact Hd|]. split; [reflexivity|]. right; left. auto.
    + destruct (GdipBitmapUnlockBits (env s) =? 0); [discriminate|].
      cbn [env log] in H.
      destruct (GlobalFree (env s) =? 0); [discriminate|].
      cbn [env log] in H.
      destruct (GdipDisposeImage (env s) =? 0); [discriminate|].
      cbn [env log] in H. repeat rewrite <- app_assoc in H. cbn [app] in H.
      match type of H with
      | match leanloader_env_deinit ?st with _ => _ end = _ =>
          destruct (leanloader_env_deinit st) as [rd s2|] eqn:Hd;
            [|discriminate]
      end.
      inversion H; subst. eexists. exists rd.
      split; [exact Hd|]. split; [reflexivity|]. right; right.
      split; [assumption|]. split; [assumption|].
      eexists. split; reflexivity.
Qed.

(** What a returning [leanloader_dispose] does to the count. *)
Lemma dispose_count N info s r info' s' :
  in_u32 (refcnt (env s)) ->
  leanloader_dispose N info s = Done (r, info') s' ->
  refcnt (env s') = Z.max 0 (refcnt (env s) - 1).
Proof.
  intros Hu H.
  destruct (dispose_then_release N info s r info' s' H) as (evs & rd & Hd & _).
  pose proof (env_deinit_spec (mkState (env s) (log s ++ evs)) Hu) as Hs.
  unfold wp in Hs. rewrite Hd in Hs. cbn [env] in Hs.
  destruct Hs as (_ & _ & _ & Hc & _). exact Hc.
Qed.

(** What a returning [leanloader_load] does to the count, below the
    largest 32-bit value. *)
Lemma load_count N info s r info' s' :
  in_u32 (refcnt (env s)) -> refcnt (env s) < 2 ^ 32 - 1 ->
  leanloader_load N info s = Done (r, info') s' ->
  exists r1 s1, leanloader_env_init N s = Done r1 s1 /\
    (r1 = 0 -> refcnt (env s) = 0 /\ refcnt (env s') = 0 /\ s' = s1) /\
    (r1 <> 0 -> refcnt (env s') = refcnt (env s) + 1).
Proof.
  intros Hu Hmax Hload.
  destruct (load_init_done N info s r info' s' Hload) as (r1 & s1 & Hinit & Hz).
  exists r1, s1. split; [exact Hinit|]. split.
  - intros ->. destruct (Hz eq_refl) as (_ & -> & _).
    destruct (Z.eq_dec (refcnt (env s)) 0) as [H0|H0].
    + destruct (first_init_failure N s s1 H0 Hinit) as [Hc _]. auto.
    + rewrite env_init_again in Hinit by exact H0.
      inversion Hinit as [[Hr Hs]].
      pose proof (in_u32_wrap32 (refcnt (env s) + 1)) as Hw.
      rewrite to_i32_zero in Hr by exact Hw.
      rewrite wrap32_small in Hr by (unfold in_u32 in *; lia).
      unfold in_u32 in Hu. lia.
  - intros Hr1.
    pose proof (load_keeps_env N info s r1 s1 Hinit) as Henv.
    rewrite Hload in Henv. cbn [final_state] in Henv. rewrite Henv.
    eapply env_init_takes_one; eauto.
Qed.

(** X9: acquire, then dispose: whenever both calls return, and whether the
    acquisition succeeded or failed at any stage, the reference count is
    back at its value before the acquisition (the count being below the
    largest 32-bit value). *)
Theorem load_then_dispose_restores_count N info s r info1 s1 r' info2 s2 :
  in_u32 (refcnt (env s)) -> refcnt (env s) < 2 ^ 32 - 1 ->
  leanloader_load N info s = Done (r, info1) s1 ->
  leanloader_dispose N info1 s1 = Done (r', info2) s2 ->
  refcnt (env s2) = refcnt (env s).
Proof.
  intros Hu Hmax Hload Hdisp.
  destruct (load_count N info s r info1 s1 Hu Hmax Hload)
    as (r1 & si & Hinit & Hz & Hnz).
  assert (in_u32 (refcnt (env s1))) as Hu1.
  { destruct (Z.eq_dec r1 0) as [E|E].
    - destruct (Hz E) as (_ & -> & _). unfold in_u32. lia.
    - rewrite (Hnz E). unfold in_u32 in *. lia. }
  rewrite (dispose_count N info1 s1 r' info2 s2 Hu1 Hdisp).
  destruct (Z.eq_dec r1 0) as [E|E].
  - destruct (Hz E) as (-> & -> & _). reflexivity.
  - rewrite (Hnz E). unfold in_u32 in Hu. lia.
Qed.

(** A failed decode on the scripted collaborator, then disposal. *)
Lemma load_then_dispose_witness :
  refcnt (env (final_state
    (leanloader_dispose (scripted decode_fails)
       (fst (after_load decode_fails "missing.png"))
       (snd (after_load decode_fails "missing.png")))))
  = refcnt (env state0).
Proof.
  apply (load_then_dispose_restores_count (scripted decode_fails)
           (fresh_info "missing.png") state0 0
           (fst (after_load decode_fails "missing.png"))
           (snd (after_load decode_fails "missing.png")) 0
           (fst (after_load decode_fails "missing.png"))).
  - unfold in_u32. cbn. lia.
  - cbn. lia.
  - vm_compute. reflexivity.
  - vm_compute. reflexivity.
Defined.

(** X10: a successful acquisition whose handle holds an image and a buffer, then
    its disposal: the calls are create, width, height, allocate, lock,
    unlock, free, dispose-image, in this order, followed only by what the
    registry release logs.  Unlock gets the block that lock left, the
    pointer freed is the one found in the block after unlock, and the image
    disposed is the one created; the handle ends with both pointers null. *)
Theorem acquire_then_dispose_pairs_calls
    N info s r1 s0 info1 s1 r' info2 s2 :
  leanloader_env_init N s = Done r1 s0 -> r1 <> 0 ->
  leanloader_load N info s = Done (1, info1) s1 ->
  gpbitmap info1 <> 0 -> bd_ptr (bd info1) <> 0 ->
  leanloader_dispose N info1 s1 = Done (r', info2) s2 ->
  exists g w h p left left' tail,
    log s2 = log s0 ++
      [EvCreateBitmapFromFile (name info) 0 g; EvGetImageWidth g 0 w;
       EvGetImageHeight g 0 h; EvGlobalAlloc GPTR (allocSize w h) p;
       EvLockBits g (full_rect w h) lock_flags PixelFormat32bppARGB
         (lock_block (bd info) w h p) 0 left;
       EvUnlockBits g left left'; EvGlobalFree (bd_ptr left');
       EvDisposeImage g] ++ tail /\
    Forall (fun e => is_teardown e = true) tail /\
    info2 = mkInfo (name info) (set_bd_ptr 0 left') 0.
Proof.
  intros Hinit Hr1 Hload Hg Hp Hdisp.
  destruct (load_stages_after_init N info s r1 s0 1 info1 s1 Hinit Hr1 Hload)
    as (evs & Hlog & Hst).
  inversion Hst; subst. cbn [gpbitmap bd] in *.
  destruct (dispose_then_release N _ s1 r' info2 s2 Hdisp)
    as (evs' & rd & Hd & _ & Hcases).
  cbn [gpbitmap bd] in Hcases.
  destruct Hcases as [(E & _)|[(_ & E & _)|(_ & _ & b & Hevs & Hinfo)]];
    [contradiction|contradiction|].
  pose proof (env_deinit_events (mkState (env s1) (log s1 ++ evs'))) as Ht.
  unfold wp in Ht. rewrite Hd in Ht. cbn [final_state log] in Ht.
  destruct Ht as (tail & Hlog2 & Htail).
  exists g, w, h, p, left, b, tail.
  split; [|split; [exact Htail|]].
  - rewrite Hlog2, Hlog, Hevs. repeat rewrite <- app_assoc. reflexivity.
  - rewrite Hinfo. reflexivity.
Qed.

(** The 10 x 10 image acquired and disposed on the scripted collaborator. *)
Lemma acquire_then_dispose_witness :
  exists g w h p left left' tail,
    log (final_state
           (leanloader_dispose (scripted (all_ok 10 10)) loaded_info loaded_state))
    = log (final_state (leanloader_env_init (scripted (all_ok 10 10)) state0)) ++
      [EvCreateBitmapFromFile (name (fresh_info "a.png")) 0 g;
       EvGetImageWidth g 0 w;
       EvGetImageHeight g 0 h; EvGlobalAlloc GPTR (allocSize w h) p;
       EvLockBits g (full_rect w h) lock_flags PixelFormat32bppARGB
         (lock_block (bd (fresh_info "a.png")) w h p) 0 left;
       EvUnlockBits g left left'; EvGlobalFree (bd_ptr left');
       EvDisposeImage g] ++ tail /\
    Forall (fun e => is_teardown e = true) tail /\
    set_gpbitmap 0 (set_bd (set_bd_ptr 0 (bd loaded_info)) loaded_info)
    = mkInfo (name (fresh_info "a.png")) (set_bd_ptr 0 left') 0.
Proof.
  apply (acquire_then_dispose_pairs_calls (scripted (all_ok 10 10))
           (fresh_info "a.png") state0 1
           (final_state (leanloader_env_init (scripted (all_ok 10 10)) state0))
           loaded_info loaded_state 0).
  - vm_compute. reflexivity.
  - discriminate.
  - vm_compute. reflexivity.
  - vm_compute. discriminate.
  - vm_compute. discriminate.
  - vm_compute. reflexivity.
Defined.

(** ** What the two entry points never call *)

(** [leanloader_env_init] neither shuts the subsystem down nor unlocks. *)
Lemma env_init_never_tears_down N s :
  wp (leanloader_env_init N) s (fun o =>
    exists evs, log (final_state o) = log s ++ evs /\
      Forall (fun e => is_shutdown e || is_unlock e = false) evs).
Proof.
  unfold leanloader_env_init.
  repeat wp_step; cbn [final_state log].
  all: log_shape || (exists []; split; [now rewrite app_nil_r|]).
  all: repeat constructor.
Qed.

(** X11: whatever happens, [leanloader_load] never calls shutdown or unlock-bits,
    and [leanloader_dispose] only makes calls that give something back
    (unlock-bits, free, dispose-image, shutdown, module unload): it never
    resolves, loads, starts, decodes, measures, allocates or locks. *)
Theorem load_never_releases_dispose_never_acquires :
  (forall N info s,
      exists evs, log (final_state (leanloader_load N info s)) = log s ++ evs /\
        Forall (fun e => is_shutdown e || is_unlock e = false) evs) /\
  (forall N info s,
      exists evs, log (final_state (leanloader_dispose N info s)) = log s ++ evs /\
        Forall (fun e => is_release e = true) evs).
Proof.
  split; intros N info s.
  - change (wp (leanloader_load N info) s (fun o =>
      exists evs, log (final_state o) = log s ++ evs /\
        Forall (fun e => is_shutdown e || is_unlock e = false) evs)).
    unfold leanloader_load.
    eapply wp_bind_with; [apply env_init_never_tears_down|].
    intros o (evs0 & Hlog & Hall).
    destruct o as [r s1|n s1]; cbn [final_state] in *.
    2: { exists evs0. auto. }
    unfold measure_allocate_lock.
    repeat wp_step; cbn [final_state log].
    all: rewrite Hlog; repeat rewrite <- app_assoc; cbn [app].
    all: try (eexists; split; [reflexivity|]; apply Forall_app; split;
              [exact Hall | repeat constructor]).
    all: exists evs0; auto.
  - change (wp (leanloader_dispose N info) s (fun o =>
      exists evs, log (final_state o) = log s ++ evs /\
        Forall (fun e => is_release e = true) evs)).
    unfold leanloader_dispose, leanloader_env_deinit.
    repeat wp_step; cbn [final_state log].
    all: log_shape || (exists []; split; [now rewrite app_nil_r|]).
    all: repeat constructor.
Qed.

(** X12: while the registry is live (count not 0) an acquisition resolves
    nothing, loads no module and neither starts nor shuts down the
    subsystem, whatever stage it reaches; in [env] it changes the count and
    nothing else. *)
Theorem load_on_live_registry_makes_no_registry_call N info s :
  refcnt (env s) <> 0 ->
  exists evs,
    log (final_state (leanloader_load N info s)) = log s ++ evs /\
    Forall (fun e => is_registry_event e = false) evs /\
    env (final_state (leanloader_load N info s))
      = set_refcnt (wrap32 (refcnt (env s) + 1)) (env s).
Proof.
  intros Hlive.
  change (wp (leanloader_load N info) s (fun o =>
    exists evs, log (final_state o) = log s ++ evs /\
      Forall (fun e => is_registry_event e = false) evs /\
      env (final_state o)
        = set_refcnt (wrap32 (refcnt (env s) + 1)) (env s))).
  unfold leanloader_load.
  eapply wp_bind_with;
    [exact (env_init_again N s Hlive : wp (leanloader_env_init N) s (fun o =>
       o = Done (to_i32 (wrap32 (refcnt (env s) + 1)))
             (mkState (set_refcnt (wrap32 (refcnt (env s) + 1)) (env s))
                (log s))))|].
  intros o ->.
  unfold measure_allocate_lock.
  repeat wp_step; cbn [final_state log env].
  all: log_shape || (exists []; split; [now rewrite app_nil_r|]).
  all: split; [repeat constructor | reflexivity].
Qed.

(** A second acquisition while the 10 x 10 image is live. *)
Lemma load_on_live_registry_witness :
  exists evs,
    log (final_state
           (leanloader_load (scripted (all_ok 10 10)) (fresh_info "b.png")
              loaded_state))
    = log loaded_state ++ evs /\
    Forall (fun e => is_registry_event e = false) evs /\
    env (final_state
           (leanloader_load (scripted (all_ok 10 10)) (fresh_info "b.png")
              loaded_state))
      = set_refcnt (wrap32 (refcnt (env loaded_state) + 1)) (env loaded_state).
Proof.
  apply (load_on_live_registry_makes_no_registry_call
           (scripted (all_ok 10 10)) (fresh_info "b.png") loaded_state).
  vm_compute. discriminate.
Defined.

(** ** The count at the top of its range *)

(** X13: at the largest 32-bit count a further [leanloader_env_init] wraps the
    count to 0 and returns 0, so [leanloader_load] reports failure without
    a single native call and the registry reads as idle while the sessions
    that were counted are still open. *)
Theorem count_wraps_at_the_top N info s :
  refcnt (env s) = 2 ^ 32 - 1 ->
  leanloader_env_init N s
    = Done 0 (mkState (set_refcnt 0 (env s)) (log s)) /\
  leanloader_load N info s
    = Done (0, set_gpbitmap 0 info) (mkState (set_refcnt 0 (env s)) (log s)).
Proof.
  intros Htop.
  assert (leanloader_env_init N s
          = Done 0 (mkState (set_refcnt 0 (env s)) (log s))) as Hinit.
  { rewrite env_init_again by (rewrite Htop; discriminate).
    rewrite Htop. reflexivity. }
  split; [exact Hinit|].
  unfold leanloader_load. unfold bind at 1. rewrite Hinit. reflexivity.
Qed.

(** The saturated registry on the scripted collaborator. *)
Lemma count_wraps_witness :
  leanloader_env_init (scripted (all_ok 10 10)) saturated_state
    = Done 0 (mkState (set_refcnt 0 (env saturated_state)) (log saturated_state)) /\
  leanloader_load (scripted (all_ok 10 10)) (fresh_info "c.png") saturated_state
    = Done (0, set_gpbitmap 0 (fresh_info "c.png"))
        (mkState (set_refcnt 0 (env saturated_state)) (log saturated_state)).
Proof.
  apply (count_wraps_at_the_top (scripted (all_ok 10 10)) (fresh_info "c.png")
           saturated_state).
  reflexivity.
Defined.

(** ** The debug driver *)

Lemma bindings_hold_no_session_event e :
  count is_started (kernel_events e) = 0%nat /\
  count is_shutdown (kernel_events e) = 0%nat /\
  count is_started (gdiplus_events e) = 0%nat /\
  count is_shutdown (gdiplus_events e) = 0%nat.
Proof. repeat split. Qed.

Lemma stages_hold_no_session_event info evs r info' :
  load_stages info evs r info' ->
  count is_started evs = 0%nat /\ count is_shutdown evs = 0%nat.
Proof. destruct 1; split; reflexivity. Qed.

(** X14: started on an idle registry, a returning [main] ends on an idle
    registry and returns 0, whatever its uninitialised handle held and
    whatever stage the acquisition reached; it shuts the subsystem down
    exactly when it started it successfully. *)
Theorem main_shuts_down_what_it_started N junk s r s' :
  refcnt (env s) = 0 ->
  main N junk s = Done r s' ->
  r = 0 /\ refcnt (env s') = 0 /\
  exists evs, log s' = log s ++ evs /\
    count is_started evs = count is_shutdown evs.
Proof.
  intros H0 Hmain. unfold main in Hmain. unfold bind at 1 in Hmain.
  match type of Hmain with
  | context [leanloader_load N ?i s] => set (info := i) in *
  end.
  destruct (leanloader_load N info s) as [[rl info1] s1|] eqn:Hload;
    [|discriminate].
  unfold bind at 1 in Hmain.
  destruct (leanloader_dispose N info1 s1) as [[rd info2] s2|] eqn:Hdisp;
    [|discriminate].
  inversion Hmain; subst r s'. split; [reflexivity|].
  assert (in_u32 (refcnt (env s))) as Hu by (rewrite H0; unfold in_u32; lia).
  assert (refcnt (env s) < 2 ^ 32 - 1) as Hmax by (rewrite H0; reflexivity).
  destruct (load_count N info s rl info1 s1 Hu Hmax Hload)
    as (r1 & si & Hinit & Hz & Hnz).
  destruct (dispose_then_release N info1 s1 rd info2 s2 Hdisp)
    as (evs' & rd' & Hd & _ & Hcases).
  assert (count is_started evs' = 0%nat /\ count is_shutdown evs' = 0%nat)
    as [Hst' Hsh'].
  { destruct Hcases as [(_ & -> & _)|[(_ & _ & -> & _)|(_ & _ & b & -> & _)]];
      split; reflexivity. }
  destruct (bindings_hold_no_session_event (env si)) as (K1 & K2 & G1 & G2).
  destruct (Z.eq_dec r1 0) as [E|E].
  - destruct (Hz E) as (_ & Hc1 & ->). subst r1.
    assert (in_u32 (refcnt (env si))) as Hu1
      by (rewrite Hc1; unfold in_u32; lia).
    pose proof (env_deinit_spec (mkState (env si) (log si ++ evs')) Hu1) as Hs.
    unfold wp in Hs. rewrite Hd in Hs. cbn [env log] in Hs.
    destruct Hs as (tail & Hlog2 & _ & Hc2 & Htail).
    rewrite Hc1 in Hc2, Htail. cbn in Hc2, Htail. subst tail.
    split; [exact Hc2|].
    destruct (first_init_failure N s si H0 Hinit)
      as (_ & [(_ & Hlog)|(_ & st & Hst & Hlog)]).
    + exists (kernel_events (env si) ++ evs').
      split; [rewrite Hlog2, Hlog, app_nil_r, <- app_assoc; reflexivity|].
      rewrite !count_app. lia.
    + exists (kernel_events (env si) ++ gdiplus_events (env si) ++
              [EvGdiplusStartup startup_input 0 st (token (env si));
               EvFreeLibrary (gdiplus (env si))] ++ evs').
      split; [rewrite Hlog2, Hlog, app_nil_r; repeat rewrite <- app_assoc;
              reflexivity|].
      rewrite !count_app, K1, K2, G1, G2, Hst', Hsh'.
      unfold count. cbn [filter is_started is_shutdown].
      rewrite (proj2 (Z.eqb_neq st 0) Hst). reflexivity.
  - destruct (first_init_success N s r1 si H0 Hinit E)
      as (_ & _ & _ & _ & _ & _ & Hlog).
    destruct (load_stages_after_init N info s r1 si rl info1 s1 Hinit E Hload)
      as (evsl & Hlogl & Hstages).
    destruct (stages_hold_no_session_event _ _ _ _ Hstages) as [L1 L2].
    pose proof (Hnz E) as Hc1. rewrite H0 in Hc1. cbn in Hc1.
    assert (in_u32 (refcnt (env s1))) as Hu1
      by (rewrite Hc1; unfold in_u32; lia).
    pose proof (env_deinit_spec (mkState (env s1) (log s1 ++ evs')) Hu1) as Hs.
    unfold wp in Hs. rewrite Hd in Hs. cbn [env log] in Hs.
    destruct Hs as (tail & Hlog2 & _ & Hc2 & Htail).
    rewrite Hc1 in Hc2, Htail. cbn in Hc2, Htail. subst tail.
    split; [exact Hc2|].
    exists (kernel_events (env si) ++ gdiplus_events (env si) ++
            [EvGdiplusStartup startup_input 0 0 (token (env si))] ++
            evsl ++ evs' ++
            [EvGdiplusShutdown (token (env s1)); EvFreeLibrary (gdiplus (env s1))]).
    split; [rewrite Hlog2, Hlogl, Hlog; repeat rewrite <- app_assoc;
            reflexivity|].
    rewrite !count_app, K1, K2, G1, G2, Hst', Hsh', L1, L2. reflexivity.
Qed.

(** The driver on the scripted collaborator, its handle full of junk. *)
Lemma main_witness :
  let s' := final_state (main (scripted (all_ok 10 10)) junk_info state0) in
  0 = 0 /\ refcnt (env s') = 0 /\
  exists evs, log s' = log state0 ++ evs /\
    count is_started evs = count is_shutdown evs.
Proof.
  intros s'.
  apply (main_shuts_down_what_it_started (scripted (all_ok 10 10)) junk_info
           state0 0 s').
  - reflexivity.
  - vm_compute. reflexivity.
Defined.
